(** * cog: the session controller and its conversation store

    A shallow embedding of the Go program: [internal/models/conversation.go],
    [internal/storage/database.go] and [internal/ui/model.go] (the same code
    is also present, flattened into package main, in [main.go] and
    [database.go]).

    Go strings are byte sequences: they are modelled as [string] (a list of
    8-bit [ascii]).  Runes are code points in [Z].  A [time.Time] is the
    number of nanoseconds since the Unix epoch, in [Z]. *)

From Stdlib Require Import ZArith List String Ascii Bool Lia Arith.
From Stdlib Require Import Sorting.Sorted Sorting.Permutation.
From Stdlib Require Import DecimalString DecimalPos DecimalZ.
Import ListNotations.

Local Open Scope string_scope.
Local Open Scope Z_scope.



(** ** Byte strings *)

Module Str.

(** The bytes of [s] in reverse order. *)
Fixpoint rev (s : string) : string :=
  match s with
  | EmptyString => EmptyString
  | String a s' => rev s' ++ String a EmptyString
  end.

End Str.

(** ** Bytes and UTF-8 *)

Definition rune := Z.

(** The numeric value of a byte, and Go's conversion [byte(x)], which keeps
    the low eight bits. *)
Definition byte_val (a : ascii) : Z := Z.of_N (N_of_ascii a).
Definition mk_byte (z : Z) : ascii := ascii_of_N (Z.to_N z).

Module utf8.

(** [utf8.RuneError], the replacement character U+FFFD. *)
Definition RuneError : rune := 0xFFFD.
Definition MaxRune : rune := 0x10FFFF.

(** A continuation byte, 10xxxxxx. *)
Definition cont (b : Z) : bool := (0x80 <=? b) && (b <=? 0xBF).

(** The range accepted for the second byte of a three- or four-byte
    sequence: it excludes overlong forms, surrogates and values above
    [MaxRune] (package utf8's [acceptRanges]). *)
Definition second_ok (b0 b1 : Z) : bool :=
  if b0 =? 0xE0 then (0xA0 <=? b1) && (b1 <=? 0xBF)
  else if b0 =? 0xED then (0x80 <=? b1) && (b1 <=? 0x9F)
  else if b0 =? 0xF0 then (0x90 <=? b1) && (b1 <=? 0xBF)
  else if b0 =? 0xF4 then (0x80 <=? b1) && (b1 <=? 0x8F)
  else cont b1.

(** One step of the conversion [[]rune(s)], as [utf8.DecodeRuneInString]
    makes it: the first code point of [s], then [rest] on what follows
    it.  A byte that does not start a well-formed UTF-8 sequence yields
    [RuneError] and decoding resumes at the next byte. *)
Definition decode (rest : string -> list rune) (s : string) : list rune :=
  match s with
  | EmptyString => []
  | String a0 s1 =>
    let b0 := byte_val a0 in
    if b0 <? 0x80 then b0 :: rest s1
    else
      match s1 with
      | EmptyString => RuneError :: rest s1
      | String a1 s2 =>
        let b1 := byte_val a1 in
        if (0xC2 <=? b0) && (b0 <=? 0xDF) then
          if cont b1 then ((b0 - 0xC0) * 64 + (b1 - 0x80)) :: rest s2
          else RuneError :: rest s1
        else
          match s2 with
          | EmptyString => RuneError :: rest s1
          | String a2 s3 =>
            let b2 := byte_val a2 in
            if (0xE0 <=? b0) && (b0 <=? 0xEF) then
              if second_ok b0 b1 && cont b2
              then ((b0 - 0xE0) * 4096 + (b1 - 0x80) * 64 + (b2 - 0x80))
                     :: rest s3
              else RuneError :: rest s1
            else
              match s3 with
              | EmptyString => RuneError :: rest s1
              | String a3 s4 =>
                let b3 := byte_val a3 in
                if (0xF0 <=? b0) && (b0 <=? 0xF4) && second_ok b0 b1
                   && cont b2 && cont b3
                then ((b0 - 0xF0) * 262144 + (b1 - 0x80) * 4096
                      + (b2 - 0x80) * 64 + (b3 - 0x80)) :: rest s4
                else RuneError :: rest s1
              end
          end
      end
  end.

(** The conversion [[]rune(s)]: the code points of [s]. *)
Fixpoint runes (s : string) : list rune := decode runes s.

(** [utf8.RuneCountInString]. *)
Definition RuneCountInString (s : string) : nat := List.length (runes s).

(** A Unicode scalar value: what [utf8.ValidRune] accepts. *)
Definition ValidRune (r : rune) : bool :=
  ((0 <=? r) && (r <? 0xD800)) || ((0xE000 <=? r) && (r <=? MaxRune)).

Definition bytes2 (b0 b1 : Z) : string :=
  String (mk_byte b0) (String (mk_byte b1) EmptyString).
Definition bytes3 (b0 b1 b2 : Z) : string :=
  String (mk_byte b0) (bytes2 b1 b2).
Definition bytes4 (b0 b1 b2 b3 : Z) : string :=
  String (mk_byte b0) (bytes3 b1 b2 b3).

(** The UTF-8 encoding of one rune ([utf8.AppendRune]): a rune that is not
    a scalar value is written as [RuneError]. *)
Definition encode_rune (r : rune) : string :=
  if (0 <=? r) && (r <? 0x80) then String (mk_byte r) EmptyString
  else if (0 <=? r) && (r <? 0x800) then
    bytes2 (0xC0 + r / 64) (0x80 + r mod 64)
  else if negb (ValidRune r) then bytes3 0xEF 0xBF 0xBD
  else if r <? 0x10000 then
    bytes3 (0xE0 + r / 4096) (0x80 + (r / 64) mod 64) (0x80 + r mod 64)
  else
    bytes4 (0xF0 + r / 262144) (0x80 + (r / 4096) mod 64)
           (0x80 + (r / 64) mod 64) (0x80 + r mod 64).

(** The conversion [string(rs)] of a rune slice. *)
Fixpoint string_of_runes (rs : list rune) : string :=
  match rs with
  | [] => EmptyString
  | r :: rs' => encode_rune r ++ string_of_runes rs'
  end.

End utf8.

(** ** Package strings and unicode: white space *)

Module strings.

(** The runes with Unicode's White_Space property ([unicode.IsSpace]). *)
Definition White_Space : list rune :=
  [0x09; 0x0A; 0x0B; 0x0C; 0x0D; 0x20; 0x85; 0xA0; 0x1680;
   0x2000; 0x2001; 0x2002; 0x2003; 0x2004; 0x2005; 0x2006; 0x2007;
   0x2008; 0x2009; 0x200A; 0x2028; 0x2029; 0x202F; 0x205F; 0x3000].

Definition IsSpace (r : rune) : bool := existsb (Z.eqb r) White_Space.

(** [strip_prefix p s] is what follows [p] in [s] when [s] starts with
    [p]. *)
Fixpoint strip_prefix (p s : string) : option string :=
  match p, s with
  | EmptyString, _ => Some s
  | String a p', String b s' =>
    if Ascii.eqb a b then strip_prefix p' s' else None
  | String _ _, EmptyString => None
  end.

Fixpoint strip_any (ps : list string) (s : string) : option string :=
  match ps with
  | [] => None
  | p :: ps' =>
    match strip_prefix p s with
    | Some s' => Some s'
    | None => strip_any ps' s
    end
  end.

(** Removes leading occurrences of the patterns [ps], at most [n] of
    them. *)
Fixpoint trim (ps : list string) (n : nat) (s : string) : string :=
  match n with
  | O => s
  | S n' =>
    match strip_any ps s with
    | Some s' => trim ps n' s'
    | None => s
    end
  end.

(** The encodings of the white space runes, and the same read from their
    last byte. *)
Definition space : list string := map utf8.encode_rune White_Space.
Definition space_rev : list string := map Str.rev space.

(** [strings.TrimLeftFunc(s, unicode.IsSpace)]: each removed rune takes at
    least one byte, so [length s] steps are enough. *)
Definition TrimLeft (s : string) : string := trim space (String.length s) s.

(** [strings.TrimRightFunc(s, unicode.IsSpace)]. *)
Definition TrimRight (s : string) : string :=
  Str.rev (trim space_rev (String.length s) (Str.rev s)).

(** [strings.TrimSpace]: [s] without its leading and trailing white
    space. *)
Definition TrimSpace (s : string) : string := TrimRight (TrimLeft s).

(** [s] starts, respectively ends, with a white space rune. *)
Definition leading_space (s : string) : bool :=
  match strip_any space s with Some _ => true | None => false end.
Definition trailing_space (s : string) : bool :=
  match strip_any space_rev (Str.rev s) with
  | Some _ => true
  | None => false
  end.

End strings.

(** ** Package time *)

Module time.

(** A [time.Time]: nanoseconds since the Unix epoch. *)
Definition Time := Z.

(** [t.Unix()]: whole seconds since the epoch. *)
Definition Unix (t : Time) : Z := t / 1000000000.

End time.

(** [fmt.Sprintf("%d", n)]. *)
Definition Sprintf_d (n : Z) : string := NilZero.string_of_int (Z.to_int n).

(** Go's [error] values are represented by their message; [None] is
    [nil]. *)
Definition error := option string.

(** ** internal/models/conversation.go *)

Module models.

Record Message := {
  Role : string;
  Content : string;
  Time : time.Time
}.

Record Conversation := {
  ID : string;
  Name : string;
  Messages : list Message;
  Created : time.Time
}.

(** The pattern shared by [Description] and by the title derivation in
    [Update]: a text of more than [limit] runes is cut to its first [keep]
    runes, followed by three dots. *)
Definition ellipsize (limit keep : nat) (text : string) : string :=
  if (limit <? utf8.RuneCountInString text)%nat
  then utf8.string_of_runes (firstn keep (utf8.runes text)) ++ "..."
  else text.

Definition FilterValue (c : Conversation) : string := Name c.
Definition Title (c : Conversation) : string := Name c.

Definition Description (c : Conversation) : string :=
  match Messages c with
  | [] => "New conversation"
  | m :: ms =>
    let lastMsg := last ms m in
    let preview := Content lastMsg in
    ellipsize 50 47 preview
  end.

End models.

(** ** internal/storage/database.go *)

Module storage.

Import models.

(** A row of table [conversations]. *)
Record ConvRow := {
  id : string;
  name : string;
  created_at : time.Time;
  updated_at : time.Time
}.

(** A row of table [messages]; [rowid] is the AUTOINCREMENT column [id]. *)
Record MsgRow := {
  rowid : Z;
  conversation_id : string;
  role : string;
  content : string;
  sent_at : time.Time
}.

(** The store as seen through one connection.  Both tables are kept in
    insertion order.  [sequence] is the largest [rowid] ever given to a
    message (SQLite's sqlite_sequence entry, which AUTOINCREMENT never
    lets decrease).  [foreign_keys] is the connection's
    [PRAGMA foreign_keys]: SQLite enforces FOREIGN KEY clauses, and runs
    their ON DELETE actions, only on a connection where it is on. *)
Record Database := {
  conversations : list ConvRow;
  messages : list MsgRow;
  sequence : Z;
  foreign_keys : bool
}.

(** What a database file holds; the pragma belongs to the connection. *)
Definition empty_file : Database :=
  {| conversations := []; messages := []; sequence := 0;
     foreign_keys := false |}.

(** [createTables]: every statement is CREATE ... IF NOT EXISTS, the rows
    of an existing file are kept. *)
Definition createTables (d : Database) : Database := d.

(** [NewDatabase]: [sql.Open] on the path and nothing else than
    [createTables]; no pragma is issued, so the connection has SQLite's
    default, foreign keys off. *)
Definition NewDatabase (file : Database) : Database :=
  createTables
    {| conversations := conversations file; messages := messages file;
       sequence := sequence file; foreign_keys := false |}.

Definition has_id (i : string) (r : ConvRow) : bool := String.eqb (id r) i.
Definition of_conv (i : string) (r : MsgRow) : bool :=
  String.eqb (conversation_id r) i.

(** DELETE FROM messages WHERE conversation_id = ? *)
Definition delete_messages (i : string) (d : Database) : Database :=
  {| conversations := conversations d;
     messages := filter (fun r => negb (of_conv i r)) (messages d);
     sequence := sequence d;
     foreign_keys := foreign_keys d |}.

(** DELETE FROM conversations WHERE id = ?, with the action
    ON DELETE CASCADE of [messages.conversation_id] when the connection
    enforces foreign keys. *)
Definition delete_conversation (i : string) (d : Database) : Database :=
  let d' :=
    {| conversations := filter (fun r => negb (has_id i r)) (conversations d);
       messages := messages d;
       sequence := sequence d;
       foreign_keys := foreign_keys d |} in
  if foreign_keys d then delete_messages i d' else d'.

(** INSERT OR REPLACE INTO conversations: a row with the same primary key
    is deleted first, then the new row is inserted. *)
Definition insert_or_replace (r : ConvRow) (d : Database) : Database :=
  let d' :=
    if existsb (has_id (id r)) (conversations d)
    then delete_conversation (id r) d else d in
  {| conversations := conversations d' ++ [r];
     messages := messages d';
     sequence := sequence d';
     foreign_keys := foreign_keys d' |}.

(** INSERT INTO messages (conversation_id, role, content, created_at):
    AUTOINCREMENT gives the row an id larger than any used before. *)
Definition insert_message (i : string) (m : Message) (d : Database)
  : Database :=
  let n := sequence d + 1 in
  {| conversations := conversations d;
     messages := messages d ++
       [{| rowid := n; conversation_id := i; role := Role m;
           content := Content m; sent_at := Time m |}];
     sequence := n;
     foreign_keys := foreign_keys d |}.

(** ORDER BY key ASC, as a stable insertion sort. *)
Fixpoint insert_by {A} (key : A -> Z) (x : A) (l : list A) : list A :=
  match l with
  | [] => [x]
  | y :: l' => if key x <=? key y then x :: l else y :: insert_by key x l'
  end.

Definition order_by {A} (key : A -> Z) (l : list A) : list A :=
  fold_right (insert_by key) [] l.

(** The statements of [SaveConversation], in one transaction. *)
Definition save_tx (now : time.Time) (conv : Conversation) (d : Database)
  : Database :=
  let d1 :=
    insert_or_replace
      {| id := ID conv; name := Name conv; created_at := Created conv;
         updated_at := now |} d in
  let d2 := delete_messages (ID conv) d1 in
  fold_left (fun acc msg => insert_message (ID conv) msg acc)
            (Messages conv) d2.

(** [SaveConversation].  [io] is the error, if any, that the engine
    reports while the transaction runs (Begin, an Exec or Commit): the
    deferred Rollback then leaves the store as it was.  [now] is the
    reading of [time.Now()] that becomes [updated_at]. *)
Definition SaveConversation (io : error) (now : time.Time)
    (conv : Conversation) (d : Database) : Database * error :=
  match io with
  | Some e => (d, Some e)
  | None => (save_tx now conv d, None)
  end.

Definition scan_message (r : MsgRow) : Message :=
  {| Role := role r; Content := content r; Time := sent_at r |}.

(** [loadMessages]: SELECT role, content, created_at FROM messages
    WHERE conversation_id = ? ORDER BY created_at ASC. *)
Definition loadMessages (io : error) (conversationID : string)
    (d : Database) : list Message * error :=
  match io with
  | Some e => ([], Some e)
  | None =>
    (map scan_message
         (order_by sent_at (filter (of_conv conversationID) (messages d))),
     None)
  end.

(** [LoadConversations]: SELECT id, name, created_at, updated_at
    FROM conversations ORDER BY created_at ASC, then [loadMessages] for
    each row. *)
Definition LoadConversations (io : error) (d : Database)
  : list Conversation * error :=
  match io with
  | Some e => ([], Some e)
  | None =>
    (map (fun r =>
            {| ID := id r; Name := name r;
               Messages := fst (loadMessages None (id r) d);
               Created := created_at r |})
         (order_by created_at (conversations d)),
     None)
  end.

(** [DeleteConversation]: one DELETE statement on [conversations]. *)
Definition DeleteConversation (io : error) (conversationID : string)
    (d : Database) : Database * error :=
  match io with
  | Some e => (d, Some e)
  | None => (delete_conversation conversationID d, None)
  end.

End storage.

(** ** internal/ui/model.go *)

Module ui.

Import models.

Inductive FocusState := FocusSidebar | FocusChat.

(** What [updateViewport] writes into the viewport: the welcome text or
    the transcript of the current conversation, then the typing indicator
    and the error line.  Styling and layout are not modelled. *)
Inductive Body :=
| Blank
| Banner
| Welcome
| Transcript (msgs : list Message).

Record Screen := {
  body : Body;
  typing : bool;
  shown_error : error
}.

(** The bubbles text area: its buffer and whether it has the focus. *)
Record Textarea := {
  Value : string;
  focused : bool
}.

(** The bubbles list: its items and the index of the cursor. *)
Record ConvList := {
  items : list Conversation;
  index : nat
}.

Record Model := {
  viewport : Screen;
  textarea : Textarea;
  conversations : list Conversation;
  currentConvID : string;
  convList : ConvList;
  db : storage.Database;
  loading : bool;
  err : error;
  ready : bool;
  focus : FocusState
}.

Inductive KeyType :=
| KeyCtrlC | KeyEsc | KeyTab | KeyCtrlN | KeyEnter
| KeyUp | KeyDown | KeyRunes.

(** The messages of the event loop; [OtherMsg] stands for those that only
    the child components handle (cursor blink and the like). *)
Inductive Msg :=
| WindowSizeMsg (Width Height : Z)
| KeyMsg (key : KeyType) (Runes : string)
| ResponseMsg (Content : string) (Err : error)
| OtherMsg.

(** One message of a chat completion request. *)
Inductive ChatRole := ChatMessageRoleSystem | ChatMessageRoleUser
                    | ChatMessageRoleAssistant.

Record ChatCompletionMessage := {
  chat_role : ChatRole;
  chat_content : string
}.

(** The commands [Update] returns: [tea.Quit], the closure built by
    [sendMessage] (represented by the request it will send), or the batch
    of the child components' commands. *)
Inductive Cmd :=
| Quit
| Send (request : list ChatCompletionMessage)
| Batch.

(** What the environment supplies while one message is handled: the
    reading of [time.Now()] and the error, if any, met by the store. *)
Record Env := {
  now : time.Time;
  io : error
}.

Definition set_viewport (v : Screen) (m : Model) : Model :=
  {| viewport := v; textarea := textarea m;
     conversations := conversations m; currentConvID := currentConvID m;
     convList := convList m; db := db m; loading := loading m;
     err := err m; ready := ready m; focus := focus m |}.

Definition set_textarea (t : Textarea) (m : Model) : Model :=
  {| viewport := viewport m; textarea := t;
     conversations := conversations m; currentConvID := currentConvID m;
     convList := convList m; db := db m; loading := loading m;
     err := err m; ready := ready m; focus := focus m |}.

Definition set_conversations (cs : list Conversation) (m : Model) : Model :=
  {| viewport := viewport m; textarea := textarea m;
     conversations := cs; currentConvID := currentConvID m;
     convList := convList m; db := db m; loading := loading m;
     err := err m; ready := ready m; focus := focus m |}.

Definition set_currentConvID (i : string) (m : Model) : Model :=
  {| viewport := viewport m; textarea := textarea m;
     conversations := conversations m; currentConvID := i;
     convList := convList m; db := db m; loading := loading m;
     err := err m; ready := ready m; focus := focus m |}.

Definition set_convList (l : ConvList) (m : Model) : Model :=
  {| viewport := viewport m; textarea := textarea m;
     conversations := conversations m; currentConvID := currentConvID m;
     convList := l; db := db m; loading := loading m;
     err := err m; ready := ready m; focus := focus m |}.

Definition set_db (d : storage.Database) (m : Model) : Model :=
  {| viewport := viewport m; textarea := textarea m;
     conversations := conversations m; currentConvID := currentConvID m;
     convList := convList m; db := d; loading := loading m;
     err := err m; ready := ready m; focus := focus m |}.

Definition set_loading (b : bool) (m : Model) : Model :=
  {| viewport := viewport m; textarea := textarea m;
     conversations := conversations m; currentConvID := currentConvID m;
     convList := convList m; db := db m; loading := b;
     err := err m; ready := ready m; focus := focus m |}.

Definition set_err (e : error) (m : Model) : Model :=
  {| viewport := viewport m; textarea := textarea m;
     conversations := conversations m; currentConvID := currentConvID m;
     convList := convList m; db := db m; loading := loading m;
     err := e; ready := ready m; focus := focus m |}.

Definition set_ready (b : bool) (m : Model) : Model :=
  {| viewport := viewport m; textarea := textarea m;
     conversations := conversations m; currentConvID := currentConvID m;
     convList := convList m; db := db m; loading := loading m;
     err := err m; ready := b; focus := focus m |}.

Definition set_focus (f : FocusState) (m : Model) : Model :=
  {| viewport := viewport m; textarea := textarea m;
     conversations := conversations m; currentConvID := currentConvID m;
     convList := convList m; db := db m; loading := loading m;
     err := err m; ready := ready m; focus := f |}.

(** [textarea.Focus], [Blur] and [Reset]. *)
Definition Focus (t : Textarea) : Textarea :=
  {| Value := Value t; focused := true |}.
Definition Blur (t : Textarea) : Textarea :=
  {| Value := Value t; focused := false |}.
Definition Reset (t : Textarea) : Textarea :=
  {| Value := EmptyString; focused := focused t |}.

(** [list.SelectedItem]: the item under the cursor, if there is one. *)
Definition SelectedItem (l : ConvList) : option Conversation :=
  nth_error (items l) (index l).

(** [GenerateConvID] and [NewConversation], given the clock. *)
Definition GenerateConvID (now : time.Time) : string :=
  "conv_" ++ Sprintf_d (time.Unix now).

Definition NewConversation (now : time.Time) (title : string)
  : Conversation :=
  {| ID := GenerateConvID now; Name := title; Messages := [];
     Created := now |}.

Definition is_current (m : Model) (c : Conversation) : bool :=
  String.eqb (ID c) (currentConvID m).

(** The position of the first element that satisfies [p]. *)
Fixpoint find_index {A} (p : A -> bool) (l : list A) : option nat :=
  match l with
  | [] => None
  | x :: l' =>
    if p x then Some O
    else match find_index p l' with
         | Some i => Some (S i)
         | None => None
         end
  end.

(** [updateConversationList]: the list shows copies of the conversations
    and its cursor is put on the current one. *)
Definition updateConversationList (m : Model) : Model :=
  let i := match find_index (is_current m) (conversations m) with
           | Some i => i
           | None => index (convList m)
           end in
  set_convList {| items := conversations m; index := i |} m.

(** [getCurrentConversation]: the first conversation with the current
    id. *)
Definition getCurrentConversation (m : Model) : option Conversation :=
  find (is_current m) (conversations m).

(** [updateViewport]: renders the current conversation, the typing
    indicator and the pending error, and clears that error. *)
Definition updateViewport (m : Model) : Model :=
  let b := match getCurrentConversation m with
           | None => Welcome
           | Some c => match Messages c with
                       | [] => Welcome
                       | _ => Transcript (Messages c)
                       end
           end in
  set_err None
    (set_viewport {| body := b; typing := loading m; shown_error := err m |}
       m).

(** The request assembled by the closure of [sendMessage]: the system
    prompt, then the messages of the current conversation of the model
    the closure captured. *)
Definition system_prompt : string :=
  "You are a helpful AI assistant. Provide clear, concise, and helpful responses.".

Definition chat_message (msg : Message) : ChatCompletionMessage :=
  {| chat_role := if String.eqb (Role msg) "user"
                  then ChatMessageRoleUser else ChatMessageRoleAssistant;
     chat_content := Content msg |}.

Definition sendMessage (m : Model) (content : string)
  : list ChatCompletionMessage :=
  {| chat_role := ChatMessageRoleSystem; chat_content := system_prompt |}
  :: match getCurrentConversation m with
     | Some c => map chat_message (Messages c)
     | None => []
     end.

(** What the closure of [sendMessage] returns once
    [CreateChatCompletion] has answered with the choices [choices] and
    the error [e]. *)
Definition completion (choices : list string) (e : error) : Msg :=
  match e with
  | Some x => ResponseMsg EmptyString (Some x)
  | None =>
    match choices with
    | [] => ResponseMsg EmptyString (Some "no response from API")
    | c :: _ => ResponseMsg c None
    end
  end.

(** The loops [for i := range m.conversations] of [Update]: the first
    conversation with the current id gets [msg] appended (and, when
    [retitle] is set and this is its first message, its title derived),
    is saved, and the loop stops. *)
Definition append_message (retitle : bool) (msg : Message)
    (c : Conversation) : Conversation :=
  let msgs := (Messages c ++ [msg])%list in
  {| ID := ID c;
     Name := if retitle && Nat.eqb (List.length msgs) 1
             then ellipsize 30 27 (Content msg) else Name c;
     Messages := msgs;
     Created := Created c |}.

Fixpoint append_to_current (i : string) (retitle : bool) (msg : Message)
    (cs : list Conversation) : list Conversation * option Conversation :=
  match cs with
  | [] => ([], None)
  | c :: cs' =>
    if String.eqb (ID c) i
    then let c' := append_message retitle msg c in (c' :: cs', Some c')
    else let (cs'', r) := append_to_current i retitle msg cs' in
         (c :: cs'', r)
  end.

(** [m.db.SaveConversation(c)] with the error stored in [m.err]. *)
Definition save (env : Env) (c : Conversation) (m : Model) : Model :=
  let (d, e) := storage.SaveConversation (io env) (now env) c (db m) in
  let m := set_db d m in
  match e with
  | Some x => set_err (Some ("failed to save conversation: " ++ x)) m
  | None => m
  end.

Definition add_message (env : Env) (retitle : bool) (msg : Message)
    (m : Model) : Model :=
  let (cs, r) :=
    append_to_current (currentConvID m) retitle msg (conversations m) in
  let m := set_conversations cs m in
  match r with
  | Some c => save env c m
  | None => m
  end.

Section Update.

(** The [Update] methods of the bubbles text area and list, which belong
    to the library: nothing is assumed about them. *)
Variable textarea_Update : Textarea -> Msg -> Textarea.
Variable list_Update : ConvList -> Msg -> ConvList.

(** The tail of [Update]: the focused child component handles the
    message.  The viewport's own [Update] scrolls and leaves the content
    alone. *)
Definition update_children (m : Model) (msg : Msg) : Model * Cmd :=
  let m := match focus m with
           | FocusChat => set_textarea (textarea_Update (textarea m) msg) m
           | FocusSidebar => m
           end in
  let m := match focus m with
           | FocusSidebar => set_convList (list_Update (convList m) msg) m
           | FocusChat => m
           end in
  (m, Batch).

Definition Update (m : Model) (msg : Msg) (env : Env) : Model * Cmd :=
  match msg with
  | WindowSizeMsg _ _ =>
    let m := if ready m then m
             else set_ready true
                    (set_viewport {| body := Blank; typing := false;
                                     shown_error := None |} m) in
    let m := updateViewport m in
    update_children m msg
  | KeyMsg KeyCtrlC _ | KeyMsg KeyEsc _ => (m, Quit)
  | KeyMsg KeyTab _ =>
    let m := match focus m with
             | FocusSidebar =>
               set_textarea (Focus (textarea m)) (set_focus FocusChat m)
             | FocusChat =>
               set_textarea (Blur (textarea m)) (set_focus FocusSidebar m)
             end in
    update_children m msg
  | KeyMsg KeyCtrlN _ =>
    let newConv := NewConversation (now env) "New Chat" in
    let m := set_conversations (conversations m ++ [newConv])%list m in
    let m := set_currentConvID (ID newConv) m in
    let m := save env newConv m in
    let m := updateConversationList m in
    let m := updateViewport m in
    let m := set_focus FocusChat m in
    let m := set_textarea (Focus (textarea m)) m in
    update_children m msg
  | KeyMsg KeyEnter _ =>
    match focus m with
    | FocusSidebar =>
      match SelectedItem (convList m) with
      | Some selectedItem =>
        let m := set_currentConvID (ID selectedItem) m in
        let m := updateViewport m in
        let m := set_focus FocusChat m in
        let m := set_textarea (Focus (textarea m)) m in
        update_children m msg
      | None => update_children m msg
      end
    | FocusChat =>
      if negb (loading m)
         && negb (String.eqb (strings.TrimSpace (Value (textarea m))) "")
      then
        let userMsg :=
          {| Role := "user";
             Content := strings.TrimSpace (Value (textarea m));
             Time := now env |} in
        let m := add_message env true userMsg m in
        let m := set_loading true m in
        let m := set_textarea (Reset (textarea m)) m in
        let m := updateConversationList m in
        let m := updateViewport m in
        (m, Send (sendMessage m (Content userMsg)))
      else update_children m msg
    end
  | KeyMsg _ _ => update_children m msg
  | ResponseMsg content e =>
    let m := set_loading false m in
    let m :=
      match e with
      | Some x => set_err (Some x) m
      | None =>
        let assistantMsg :=
          {| Role := "assistant"; Content := content; Time := now env |} in
        add_message env false assistantMsg m
      end in
    let m := updateConversationList m in
    let m := updateViewport m in
    update_children m msg
  | OtherMsg => update_children m msg
  end.

(** *** The event loop

    The Bubble Tea runtime owns the model: it feeds terminal input to
    [Update], starts the command [Update] returns, and feeds the message a
    finished command produced back to [Update].  [pending] are the
    requests whose closure is running; [stopped] is set by [tea.Quit]. *)
Record Session := {
  model : Model;
  pending : list (list ChatCompletionMessage);
  stopped : bool
}.

Definition is_input (msg : Msg) : bool :=
  match msg with
  | ResponseMsg _ _ => false
  | _ => true
  end.

(** The runtime hands [msg] to [Update] and starts the command. *)
Definition deliver (s : Session) (msg : Msg) (env : Env) : Session :=
  let (m', cmd) := Update (model s) msg env in
  {| model := m';
     pending := match cmd with
                | Send r => (pending s ++ [r])%list
                | _ => pending s
                end;
     stopped := match cmd with Quit => true | _ => stopped s end |}.

(** What happens next: terminal input (or a tick) [msg], or the request
    at position [k] of [pending] finishes with [choices] and the error
    [e]. *)
Inductive Event :=
| Input (msg : Msg) (env : Env)
| Completion (k : nat) (choices : list string) (e : error) (env : Env).

Fixpoint remove_nth {A} (k : nat) (l : list A) : list A :=
  match l, k with
  | [], _ => []
  | _ :: l', O => l'
  | x :: l', S k' => x :: remove_nth k' l'
  end.

(** One turn of the loop; [None] when the event cannot occur (the program
    has quit, or no such request is in flight). *)
Definition fire (s : Session) (ev : Event) : option Session :=
  if stopped s then None
  else
    match ev with
    | Input msg env =>
      if is_input msg then Some (deliver s msg env) else None
    | Completion k choices e env =>
      match nth_error (pending s) k with
      | Some _ =>
        Some (deliver {| model := model s;
                         pending := remove_nth k (pending s);
                         stopped := false |}
                      (completion choices e) env)
      | None => None
      end
    end.

Fixpoint run (s : Session) (evs : list Event) : option Session :=
  match evs with
  | [] => Some s
  | ev :: evs' =>
    match fire s ev with
    | Some s' => run s' evs'
    | None => None
    end
  end.

Definition reachable (s0 s : Session) : Prop :=
  exists evs, run s0 evs = Some s.

End Update.

(** [NewModel]: the conversations of the store or, when there are none
    (or loading fails), one new conversation, which is saved; the first
    one is current. *)
Definition NewModel (load_io save_io : error) (clock : time.Time)
    (d : storage.Database) : Model :=
  let (conversations0, e) := storage.LoadConversations load_io d in
  let loaded := match e with Some _ => [] | None => conversations0 end in
  let initialConv := NewConversation clock "New Chat" in
  let convs := match loaded with [] => [initialConv] | _ => loaded end in
  let d' := match loaded with
            | [] => fst (storage.SaveConversation save_io clock
                           initialConv d)
            | _ => d
            end in
  {| viewport := {| body := Banner; typing := false; shown_error := None |};
     textarea := {| Value := EmptyString; focused := false |};
     conversations := convs;
     currentConvID := match convs with c :: _ => ID c | [] => EmptyString end;
     convList := {| items := convs; index := O |};
     db := d';
     loading := false;
     err := None;
     ready := false;
     focus := FocusChat |}.

End ui.

(** The session at program start, as [main] sets it up. *)
Definition start (load_io save_io : error) (clock : time.Time)
    (file : storage.Database) : ui.Session :=
  {| ui.model := ui.NewModel load_io save_io clock
                   (storage.NewDatabase file);
     ui.pending := [];
     ui.stopped := false |}.

(** Simple stand-ins for the two library components, used to run the
    session on concrete inputs: typing appends to the buffer of a focused
    text area, the arrow keys move the list cursor within the items. *)
Module bubbles.

Import ui.

Definition newline : string := String (ascii_of_nat 10) EmptyString.

Definition textarea_Update (t : Textarea) (msg : Msg) : Textarea :=
  if focused t then
    match msg with
    | KeyMsg KeyRunes r => {| Value := Value t ++ r; focused := true |}
    | KeyMsg KeyEnter _ => {| Value := Value t ++ newline; focused := true |}
    | _ => t
    end
  else t.

Definition list_Update (l : ConvList) (msg : Msg) : ConvList :=
  match msg with
  | KeyMsg KeyDown _ =>
    if (S (index l) <? List.length (items l))%nat
    then {| items := items l; index := S (index l) |} else l
  | KeyMsg KeyUp _ => {| items := items l; index := Nat.pred (index l) |}
  | _ => l
  end.

Definition Update := ui.Update textarea_Update list_Update.
Definition deliver := ui.deliver textarea_Update list_Update.
Definition run := ui.run textarea_Update list_Update.

End bubbles.

(** * Vocabulary of the properties *)

(** Every rune is a Unicode scalar value. *)
Definition valid_runes (rs : list rune) : Prop :=
  Forall (fun r => utf8.ValidRune r = true) rs.

Definition nonempty (p : string) : bool :=
  match p with EmptyString => false | String _ _ => true end.

(** [Update] on Enter sends the buffer: the chat has the focus, no request
    is awaited and the buffer is not blank. *)
Definition submits (m : ui.Model) : bool :=
  match ui.focus m with
  | ui.FocusChat =>
    negb (ui.loading m)
    && negb (String.eqb (strings.TrimSpace (ui.Value (ui.textarea m))) "")
  | ui.FocusSidebar => false
  end.

(** The messages [Update] builds. *)
Definition userMsg (m : ui.Model) (env : ui.Env) : models.Message :=
  {| models.Role := "user";
     models.Content := strings.TrimSpace (ui.Value (ui.textarea m));
     models.Time := ui.now env |}.

Definition assistantMsg (content : string) (env : ui.Env) : models.Message :=
  {| models.Role := "assistant";
     models.Content := content;
     models.Time := ui.now env |}.

(** The position of the conversation [Update] appends to: the first one
    with the current id. *)
Definition current_index (m : ui.Model) : option nat :=
  ui.find_index (ui.is_current m) (ui.conversations m).

(** The conversations after [Update] has handled [msg]. *)
Definition conversations_after (m : ui.Model) (msg : ui.Msg) (env : ui.Env)
  : list models.Conversation :=
  match msg with
  | ui.KeyMsg ui.KeyCtrlN _ =>
    (ui.conversations m ++ [ui.NewConversation (ui.now env) "New Chat"])%list
  | ui.KeyMsg ui.KeyEnter _ =>
    if submits m
    then fst (ui.append_to_current (ui.currentConvID m) true (userMsg m env)
                (ui.conversations m))
    else ui.conversations m
  | ui.ResponseMsg content None =>
    fst (ui.append_to_current (ui.currentConvID m) false
           (assistantMsg content env) (ui.conversations m))
  | _ => ui.conversations m
  end.

(** Position [k] is the first one whose conversation has id [i]. *)
Definition first_with_id (i : string) (cs : list models.Conversation)
    (k : nat) : bool :=
  match ui.find_index (fun c => String.eqb (models.ID c) i) cs with
  | Some j => Nat.eqb j k
  | None => false
  end.

(** What the store holds, without the columns the engine fills in (the
    [rowid] of a message and [updated_at]). *)
Definition conv_columns (r : storage.ConvRow) : string * string * time.Time :=
  (storage.id r, storage.name r, storage.created_at r).

Definition msg_columns (r : storage.MsgRow)
  : string * string * string * time.Time :=
  (storage.conversation_id r, storage.role r, storage.content r,
   storage.sent_at r).

Definition stored (d : storage.Database) :=
  (map conv_columns (storage.conversations d),
   map msg_columns (storage.messages d)).

(** Ascending, and strictly ascending, by a key. *)
Definition ascending {A} (key : A -> Z) (l : list A) : Prop :=
  Sorted (fun a b => key a <= key b) l.

Definition strictly_ascending {A} (key : A -> Z) (l : list A) : Prop :=
  Sorted (fun a b => key a < key b) l.

(** The message rows of conversation [i] that no conversation row owns. *)
Definition orphans (d : storage.Database) : list storage.MsgRow :=
  filter (fun r => negb (existsb (storage.has_id (storage.conversation_id r))
                           (storage.conversations d)))
         (storage.messages d).

(** The rows [SaveConversation] writes for the messages [msgs] of
    conversation [i] when the last row id used is [n]. *)
Fixpoint new_rows (i : string) (n : Z) (msgs : list models.Message)
  : list storage.MsgRow :=
  match msgs with
  | [] => []
  | m :: msgs' =>
    {| storage.rowid := n + 1; storage.conversation_id := i;
       storage.role := models.Role m; storage.content := models.Content m;
       storage.sent_at := models.Time m |} :: new_rows i (n + 1) msgs'
  end.

Definition conv_row (now : time.Time) (c : models.Conversation)
  : storage.ConvRow :=
  {| storage.id := models.ID c; storage.name := models.Name c;
     storage.created_at := models.Created c; storage.updated_at := now |}.

Definition other_conv (i : string) (r : storage.ConvRow) : bool :=
  negb (storage.has_id i r).
Definition other_msg (i : string) (r : storage.MsgRow) : bool :=
  negb (storage.of_conv i r).

(** [LoadConversations] reads only the columns of [stored]. *)
Definition load_columns
    (s : list (string * string * time.Time)
         * list (string * string * string * time.Time))
  : list models.Conversation :=
  map (fun p =>
         {| models.ID := fst (fst p);
            models.Name := snd (fst p);
            models.Messages :=
              map (fun q => {| models.Role := snd (fst (fst q));
                               models.Content := snd (fst q);
                               models.Time := snd q |})
                  (storage.order_by snd
                     (filter (fun q => String.eqb (fst (fst (fst q)))
                                                  (fst (fst p)))
                             (snd s)));
            models.Created := snd p |})
      (storage.order_by snd (fst s)).

Definition is_send (c : ui.Cmd) : bool :=
  match c with ui.Send _ => true | _ => false end.

Definition is_quit (c : ui.Cmd) : bool :=
  match c with ui.Quit => true | _ => false end.

(** At most one request is in flight, and exactly when [loading] is
    set. *)
Definition in_flight (s : ui.Session) : Prop :=
  List.length (ui.pending s)
  = if ui.loading (ui.model s) then 1%nat else 0%nat.

Definition is_enter (msg : ui.Msg) : bool :=
  match msg with ui.KeyMsg ui.KeyEnter _ => true | _ => false end.

Definition is_nil {A} (l : list A) : bool :=
  match l with [] => true | _ :: _ => false end.

(** A message of the user has a content that is not empty and neither
    starts nor ends with white space. *)
Definition user_ok (msg : models.Message) : Prop :=
  models.Role msg = "user" ->
  models.Content msg <> "" /\
  strings.leading_space (models.Content msg) = false /\
  strings.trailing_space (models.Content msg) = false.

Definition users_trimmed (cs : list models.Conversation) : Prop :=
  forall c msg, In c cs -> In msg (models.Messages c) -> user_ok msg.

(** ** Scenarios *)

Module scenario.

Import models.

Definition second : Z := 1000000000.

Definition at_ (t : time.Time) : ui.Env := {| ui.now := t; ui.io := None |}.

Definition press (k : ui.KeyType) (t : time.Time) : ui.Event :=
  ui.Input (ui.KeyMsg k "") (at_ t).

Definition type (text : string) (t : time.Time) : ui.Event :=
  ui.Input (ui.KeyMsg ui.KeyRunes text) (at_ t).

(** What a scenario looks at: the current id, each conversation's id,
    name and messages, and the contents of the requests in flight. *)
Definition view (s : ui.Session) :=
  (ui.currentConvID (ui.model s),
   map (fun c => (ID c, Name c,
                  map (fun m => (Role m, Content m)) (Messages c)))
       (ui.conversations (ui.model s)),
   map (map ui.chat_content) (ui.pending s)).

(** The program starts on an empty store at second 1: one conversation,
    "conv_1". *)
Definition fresh : ui.Session :=
  start None None (1 * second) storage.empty_file.

(** Ctrl+N at second 5 creates "conv_5"; the user types "Hello" there and
    presses Enter; then moves to the sidebar, up to "conv_1", and selects
    it. *)
Definition submit_in_A : list ui.Event :=
  [press ui.KeyCtrlN (5 * second); type " Hello " (6 * second);
   press ui.KeyEnter (6 * second)].

Definition switch_to_B : list ui.Event :=
  [press ui.KeyTab (7 * second); press ui.KeyUp (7 * second);
   press ui.KeyEnter (8 * second)].

Definition answer : ui.Event :=
  ui.Completion 0 ["Hi there"] None (at_ (9 * second)).

Definition or_fresh (r : option ui.Session) : ui.Session :=
  match r with Some s => s | None => fresh end.

(** The session while the answer to "Hello" is awaited. *)
Definition awaiting : ui.Session :=
  Eval vm_compute in or_fresh (bubbles.run fresh submit_in_A).

(** A conversation with two messages, in the order of their times and
    against it. *)
Definition hello : Message :=
  {| Role := "user"; Content := "Hello"; Time := 6 * second |}.
Definition hi_there : Message :=
  {| Role := "assistant"; Content := "Hi there"; Time := 9 * second |}.

Definition chat (msgs : list Message) : Conversation :=
  {| ID := "conv_5"; Name := "Hello"; Messages := msgs;
     Created := 5 * second |}.

Definition opened : storage.Database := storage.NewDatabase storage.empty_file.

(** Sixty two-byte runes. *)
Definition sixty : string :=
  "éééééééééééééééééééééééééééééééééééééééééééééééééééééééééééé".

Definition forty_seven_and_dots : string :=
  "ééééééééééééééééééééééééééééééééééééééééééééééé...".

Definition twenty_seven_and_dots : string :=
  "ééééééééééééééééééééééééééé...".

(** The session once the user has moved to "conv_1". *)
Definition switched : ui.Session :=
  Eval vm_compute in
    or_fresh (bubbles.run fresh (submit_in_A ++ switch_to_B)).



(** The first session with "Hello" typed, and a store that fails. *)
Definition typed : ui.Model :=
  ui.set_textarea {| ui.Value := " Hello "; ui.focused := true |}
    (ui.model fresh).

Definition disk_full (t : time.Time) : ui.Env :=
  {| ui.now := t; ui.io := Some "disk full" |}.

Definition first_chat : Conversation :=
  ui.NewConversation (1 * second) "New Chat".

(** Fifty-one bytes 0xFF: no UTF-8 at all. *)
Definition garbled : string :=
  Eval vm_compute in
    String.concat "" (List.repeat (String (ascii_of_nat 255) "") 51).

(** A store with two conversations. *)
Definition two_chats : storage.Database :=
  fst (storage.SaveConversation None (9 * second) (chat [hello; hi_there])
         (fst (storage.SaveConversation None (1 * second) first_chat
                 opened))).


(** The program starts at second 20 on the store with two conversations;
    Ctrl+N, then a text of sixty runes is typed and sent. *)
Definition second_start : ui.Session :=
  start None None (20 * second) two_chats.

Definition long_submit : list ui.Event :=
  [press ui.KeyCtrlN (21 * second); type sixty (22 * second);
   press ui.KeyEnter (23 * second)].

Definition titled : ui.Session :=
  Eval vm_compute in
    or_fresh (bubbles.run second_start long_submit).

(** A space, a tab, a line feed, a no-break space and an ideographic
    space, and the first session with them in the buffer. *)
Definition white : list rune := [0x20; 0x09; 0x0A; 0xA0; 0x3000].

Definition spaces : string :=
  Eval vm_compute in utf8.string_of_runes white.

Definition padded : ui.Session :=
  {| ui.model := ui.set_textarea {| ui.Value := spaces; ui.focused := true |}
                   (ui.model fresh);
     ui.pending := [];
     ui.stopped := false |}.

End scenario.

(** [s] is well-formed UTF-8: it is the encoding of its own code
    points. *)
Definition well_formed (s : string) : Prop :=
  utf8.string_of_runes (utf8.runes s) = s.

(** The calls a client makes on the store. *)
Inductive StoreOp :=
| Save (io : error) (now : time.Time) (conv : models.Conversation)
| Delete (io : error) (conversationID : string).

Definition apply_op (d : storage.Database) (op : StoreOp)
  : storage.Database :=
  match op with
  | Save io now conv => fst (storage.SaveConversation io now conv d)
  | Delete io i => fst (storage.DeleteConversation io i d)
  end.

Definition apply_ops (ops : list StoreOp) (d : storage.Database)
  : storage.Database :=
  fold_left apply_op ops d.

(** [LoadConversations] maps a row to a conversation with the messages
    of the row's id. *)
Definition scan_conversation (d : storage.Database) (r : storage.ConvRow)
  : models.Conversation :=
  {| models.ID := storage.id r; models.Name := storage.name r;
     models.Messages := fst (storage.loadMessages None (storage.id r) d);
     models.Created := storage.created_at r |}.

(** [c'] is [c] with messages appended, if any. *)
Definition extends (c c' : models.Conversation) : Prop :=
  models.ID c' = models.ID c /\
  models.Created c' = models.Created c /\
  exists more, models.Messages c' = (models.Messages c ++ more)%list.

(** Every conversation of [cs] is still there in [cs'], at its place. *)
Definition grown (cs cs' : list models.Conversation) : Prop :=
  forall k c, nth_error cs k = Some c ->
              exists c', nth_error cs' k = Some c' /\ extends c c'.

Definition is_some {A} (o : option A) : bool :=
  match o with Some _ => true | None => false end.

(** The conversation [Update] saves while it handles [msg]. *)
Definition saved_conversation (m : ui.Model) (msg : ui.Msg) (env : ui.Env)
  : option models.Conversation :=
  match msg with
  | ui.KeyMsg ui.KeyCtrlN _ =>
    Some (ui.NewConversation (ui.now env) "New Chat")
  | ui.KeyMsg ui.KeyEnter _ =>
    if submits m
    then option_map (ui.append_message true (userMsg m env))
                    (ui.getCurrentConversation m)
    else None
  | ui.ResponseMsg content None =>
    option_map (ui.append_message false (assistantMsg content env))
               (ui.getCurrentConversation m)
  | _ => None
  end.

(** What the viewport shows of the conversations: the transcript of the
    current one, or the welcome text. *)
Definition body_of (m : ui.Model) : ui.Body :=
  match ui.getCurrentConversation m with
  | None => ui.Welcome
  | Some c => match models.Messages c with
              | [] => ui.Welcome
              | _ => ui.Transcript (models.Messages c)
              end
  end.

Definition on_screen (m : ui.Model) : Prop :=
  ui.body (ui.viewport m) = ui.Banner \/
  (ui.body (ui.viewport m) = body_of m /\
   ui.typing (ui.viewport m) = ui.loading m).

(** The ids of the listed items and the current id are ids of
    conversations the session holds. *)
Definition ids_known (m : ui.Model) : Prop :=
  incl (map models.ID (ui.items (ui.convList m)))
       (map models.ID (ui.conversations m)) /\
  In (ui.currentConvID m) (map models.ID (ui.conversations m)).






(** No title has more than [n] runes, in the session and in the store. *)
Definition title_ok (n : nat) (name : string) : Prop :=
  (utf8.RuneCountInString name <= n)%nat.

Definition titles_within (n : nat) (m : ui.Model) : Prop :=
  Forall (fun c => title_ok n (models.Name c)) (ui.conversations m) /\
  Forall (fun r => title_ok n (storage.name r))
         (storage.conversations (ui.db m)).

(** Every message row belongs to a conversation row. *)
Definition owned (d : storage.Database) : Prop :=
  forall r, In r (storage.messages d) ->
            exists q, In q (storage.conversations d) /\
                      storage.id q = storage.conversation_id r.

(** A text made of white space only. *)
Definition blank (text : string) : Prop :=
  exists rs, Forall (fun r => strings.IsSpace r = true) rs /\
             text = utf8.string_of_runes rs.
(** * Properties *)

(** ** Byte strings *)

Lemma append_nil_r (s : string) : s ++ "" = s.
Proof. induction s as [|a s IH]; simpl; [reflexivity | now rewrite IH]. Qed.

Lemma append_assoc (s t u : string) : (s ++ t) ++ u = s ++ (t ++ u).
Proof. induction s as [|a s IH]; simpl; [reflexivity | now rewrite IH]. Qed.

Lemma length_append (s t : string) :
  String.length (s ++ t) = (String.length s + String.length t)%nat.
Proof. induction s as [|a s IH]; simpl; [reflexivity | now rewrite IH]. Qed.

Lemma rev_append (s t : string) : Str.rev (s ++ t) = Str.rev t ++ Str.rev s.
Proof.
  induction s as [|a s IH]; simpl.
  - now rewrite append_nil_r.
  - now rewrite IH, append_assoc.
Qed.

Lemma rev_involutive (s : string) : Str.rev (Str.rev s) = s.
Proof.
  induction s as [|a s IH]; simpl; [reflexivity|].
  now rewrite rev_append, IH.
Qed.

Lemma length_rev (s : string) : String.length (Str.rev s) = String.length s.
Proof.
  induction s as [|a s IH]; simpl; [reflexivity|].
  rewrite length_append, IH. simpl. lia.
Qed.

Lemma byte_val_range (a : ascii) : 0 <= byte_val a < 256.
Proof.
  unfold byte_val. pose proof (N_ascii_bounded a). lia.
Qed.

Lemma byte_val_mk_byte (z : Z) : 0 <= z < 256 -> byte_val (mk_byte z) = z.
Proof.
  intros H. unfold byte_val, mk_byte.
  rewrite N_ascii_embedding by lia. lia.
Qed.

(** ** UTF-8 *)

(** The base-64 digits of a code point, as the encoder splits it. *)
Lemma digits2 (r : Z) :
  exists a b, r / 64 = a /\ r mod 64 = b /\ r = 64 * a + b /\ 0 <= b < 64.
Proof.
  exists (r / 64), (r mod 64). repeat split; try reflexivity;
    Z.div_mod_to_equations; lia.
Qed.

Lemma digits3 (r : Z) :
  exists a b c, r / 4096 = a /\ (r / 64) mod 64 = b /\ r mod 64 = c /\
                r = 4096 * a + 64 * b + c /\ 0 <= b < 64 /\ 0 <= c < 64.
Proof.
  exists (r / 4096), ((r / 64) mod 64), (r mod 64).
  repeat split; try reflexivity; Z.div_mod_to_equations; lia.
Qed.

Lemma digits4 (r : Z) :
  exists a b c d,
    r / 262144 = a /\ (r / 4096) mod 64 = b /\ (r / 64) mod 64 = c /\
    r mod 64 = d /\ r = 262144 * a + 4096 * b + 64 * c + d /\
    0 <= b < 64 /\ 0 <= c < 64 /\ 0 <= d < 64.
Proof.
  exists (r / 262144), ((r / 4096) mod 64), ((r / 64) mod 64), (r mod 64).
  repeat split; try reflexivity; Z.div_mod_to_equations; lia.
Qed.

Ltac decide_tests :=
  repeat match goal with
  | |- context [?a <? ?b] =>
    (rewrite (proj2 (Z.ltb_lt a b)) by lia)
    || (rewrite (proj2 (Z.ltb_ge a b)) by lia)
  | |- context [?a <=? ?b] =>
    (rewrite (proj2 (Z.leb_le a b)) by lia)
    || (rewrite (proj2 (Z.leb_gt a b)) by lia)
  | |- context [?a =? ?b] =>
    (rewrite (proj2 (Z.eqb_eq a b)) by lia)
    || (rewrite (proj2 (Z.eqb_neq a b)) by lia)
  end.

Lemma runes_eq (s : string) : utf8.runes s = utf8.decode utf8.runes s.
Proof. destruct s; reflexivity. Qed.

Ltac unfold_runes :=
  cbn [andb append utf8.bytes2 utf8.bytes3 utf8.bytes4];
  rewrite runes_eq; unfold utf8.decode.

Lemma runes_encode_rune (r : rune) (s : string) :
  utf8.ValidRune r = true ->
  utf8.runes (utf8.encode_rune r ++ s) = r :: utf8.runes s.
Proof.
  intros Hv.
  assert (Hr : 0 <= r < 0xD800 \/ 0xE000 <= r <= 0x10FFFF)
    by (unfold utf8.ValidRune, utf8.MaxRune in Hv; lia).
  unfold utf8.encode_rune. rewrite Hv. clear Hv.
  destruct (Z.ltb_spec r 0x80) as [H1|H1].
  - rewrite (proj2 (Z.leb_le 0 r)) by lia. unfold_runes.
    rewrite byte_val_mk_byte by lia.
    rewrite (proj2 (Z.ltb_lt r 128)) by lia. reflexivity.
  - rewrite andb_false_r.
    destruct (Z.ltb_spec r 0x800) as [H2|H2].
    + rewrite (proj2 (Z.leb_le 0 r)) by lia. unfold_runes.
      destruct (digits2 r) as (a & b & -> & -> & E & Hb).
      rewrite !byte_val_mk_byte by lia.
      unfold utf8.cont. decide_tests. cbn [andb]. f_equal. lia.
    + rewrite andb_false_r. cbn [negb].
      destruct (Z.ltb_spec r 0x10000) as [H3|H3].
      * unfold_runes.
        destruct (digits3 r) as (a & b & c & -> & -> & -> & E & Hb & Hc).
        rewrite !byte_val_mk_byte by lia.
        unfold utf8.second_ok, utf8.cont.
        destruct (Z.eq_dec a 0) as [E0|E0];
          [|destruct (Z.eq_dec a 13) as [E1|E1]];
          decide_tests; cbn [andb]; f_equal; lia.
      * unfold_runes.
        destruct (digits4 r)
          as (a & b & c & d & -> & -> & -> & -> & E & Hb & Hc & Hd).
        rewrite !byte_val_mk_byte by lia.
        unfold utf8.second_ok, utf8.cont.
        destruct (Z.eq_dec a 0) as [E0|E0];
          [|destruct (Z.eq_dec a 4) as [E1|E1]];
          decide_tests; cbn [andb]; f_equal; lia.
Qed.

Lemma ValidRune_intro (r : rune) :
  0 <= r < 0xD800 \/ 0xE000 <= r <= 0x10FFFF -> utf8.ValidRune r = true.
Proof. unfold utf8.ValidRune, utf8.MaxRune. lia. Qed.

Lemma runes_valid_bounded (n : nat) :
  forall s, (String.length s <= n)%nat -> valid_runes (utf8.runes s).
Proof.
  unfold valid_runes.
  induction n as [|n IH]; intros s Hn.
  - destruct s; [constructor | simpl in Hn; lia].
  - rewrite runes_eq.
    destruct s as [|a0 s1]; [constructor|]. cbn [String.length] in Hn.
    pose proof (byte_val_range a0) as R0.
    assert (Hbad : Forall (fun r => utf8.ValidRune r = true)
                     (utf8.RuneError :: utf8.runes s1)).
    { constructor; [reflexivity | apply IH; lia]. }
    cbn [utf8.decode]. cbv zeta.
    destruct (byte_val a0 <? 128) eqn:T0.
    { constructor; [apply ValidRune_intro; lia | apply IH; lia]. }
    destruct s1 as [|a1 s2]; [exact Hbad|]. cbn [String.length] in Hn.
    pose proof (byte_val_range a1) as R1.
    destruct ((194 <=? byte_val a0) && (byte_val a0 <=? 223)) eqn:T1.
    { destruct (utf8.cont (byte_val a1)) eqn:C1; [|exact Hbad].
      unfold utf8.cont in C1.
      constructor; [apply ValidRune_intro; lia | apply IH; lia]. }
    destruct s2 as [|a2 s3]; [exact Hbad|]. cbn [String.length] in Hn.
    pose proof (byte_val_range a2) as R2.
    destruct ((224 <=? byte_val a0) && (byte_val a0 <=? 239)) eqn:T2.
    { destruct (utf8.second_ok (byte_val a0) (byte_val a1)
                && utf8.cont (byte_val a2)) eqn:C2; [|exact Hbad].
      apply andb_true_iff in C2. destruct C2 as [C2 C3].
      unfold utf8.second_ok, utf8.cont in C2, C3.
      constructor; [|apply IH; lia].
      apply ValidRune_intro.
      destruct (byte_val a0 =? 224) eqn:E0; [lia|].
      destruct (byte_val a0 =? 237) eqn:E1; [lia|].
      destruct (byte_val a0 =? 240) eqn:E2; [lia|].
      destruct (byte_val a0 =? 244) eqn:E3; lia. }
    destruct s3 as [|a3 s4]; [exact Hbad|]. cbn [String.length] in Hn.
    pose proof (byte_val_range a3) as R3.
    match goal with |- context [if ?c then _ else _] =>
      destruct c eqn:C4; [|exact Hbad] end.
    repeat (apply andb_true_iff in C4; destruct C4 as [C4 ?]).
    unfold utf8.second_ok, utf8.cont in *.
    constructor; [|apply IH; lia].
    apply ValidRune_intro.
    destruct (byte_val a0 =? 224) eqn:E0; [lia|].
    destruct (byte_val a0 =? 237) eqn:E1; [lia|].
    destruct (byte_val a0 =? 240) eqn:E2; [lia|].
    destruct (byte_val a0 =? 244) eqn:E3; lia.
Qed.

Lemma runes_valid (s : string) : valid_runes (utf8.runes s).
Proof. apply runes_valid_bounded with (n := String.length s). lia. Qed.

Lemma runes_string_of_runes (rs : list rune) (s : string) :
  valid_runes rs ->
  utf8.runes (utf8.string_of_runes rs ++ s) = (rs ++ utf8.runes s)%list.
Proof.
  induction 1 as [|r rs Hr _ IH]; [reflexivity|].
  cbn [utf8.string_of_runes app]. rewrite append_assoc.
  rewrite runes_encode_rune by assumption. now rewrite IH.
Qed.

Lemma valid_runes_firstn (n : nat) (rs : list rune) :
  valid_runes rs -> valid_runes (firstn n rs).
Proof.
  unfold valid_runes. intros H. revert n.
  induction H as [|r rs Hr _ IH]; intros [|k]; cbn [firstn];
    constructor; auto.
Qed.

(** ** [ellipsize] *)

Lemma ellipsize_short (limit keep : nat) (text : string) :
  (utf8.RuneCountInString text <= limit)%nat ->
  models.ellipsize limit keep text = text.
Proof.
  intros H. unfold models.ellipsize.
  destruct (Nat.ltb_spec limit (utf8.RuneCountInString text)); [lia|].
  reflexivity.
Qed.

Lemma ellipsize_long (limit keep : nat) (text : string) :
  (limit < utf8.RuneCountInString text)%nat ->
  models.ellipsize limit keep text
  = utf8.string_of_runes (firstn keep (utf8.runes text)) ++ "...".
Proof.
  intros H. unfold models.ellipsize.
  destruct (Nat.ltb_spec limit (utf8.RuneCountInString text)); [|lia].
  reflexivity.
Qed.

Lemma runes_ellipsize_long (limit keep : nat) (text : string) :
  (limit < utf8.RuneCountInString text)%nat ->
  utf8.runes (models.ellipsize limit keep text)
  = (firstn keep (utf8.runes text) ++ utf8.runes "...")%list.
Proof.
  intros H. rewrite ellipsize_long by assumption.
  apply runes_string_of_runes, valid_runes_firstn, runes_valid.
Qed.

Lemma RuneCount_ellipsize_long (limit keep : nat) (text : string) :
  (limit < utf8.RuneCountInString text)%nat -> (keep <= limit)%nat ->
  utf8.RuneCountInString (models.ellipsize limit keep text) = (keep + 3)%nat.
Proof.
  intros H Hk. unfold utf8.RuneCountInString in *.
  rewrite runes_ellipsize_long by assumption.
  rewrite length_app, length_firstn. cbn. lia.
Qed.

(** ** White space trimming *)

Lemma strip_prefix_sound (p s s' : string) :
  strings.strip_prefix p s = Some s' -> s = p ++ s'.
Proof.
  revert s. induction p as [|a p IH]; intros s H; simpl in H.
  - now injection H as ->.
  - destruct s as [|b s]; [discriminate|].
    destruct (Ascii.eqb_spec a b) as [->|]; [|discriminate].
    simpl. f_equal. now apply IH.
Qed.

Lemma strip_prefix_append (p s s' u : string) :
  strings.strip_prefix p s = Some s' ->
  strings.strip_prefix p (s ++ u) = Some (s' ++ u).
Proof.
  revert s. induction p as [|a p IH]; intros s H; simpl in H.
  - injection H as ->. reflexivity.
  - destruct s as [|b s]; [discriminate|]. simpl.
    destruct (Ascii.eqb a b); [now apply IH | discriminate].
Qed.

Lemma strip_any_shorter (ps : list string) (s s' : string) :
  forallb nonempty ps = true ->
  strings.strip_any ps s = Some s' ->
  (String.length s' < String.length s)%nat.
Proof.
  induction ps as [|p ps IH]; simpl; intros Hne H; [discriminate|].
  apply andb_true_iff in Hne. destruct Hne as [Hp Hps].
  destruct (strings.strip_prefix p s) as [x|] eqn:E.
  - injection H as ->. apply strip_prefix_sound in E. subst s.
    rewrite length_append. destruct p; [discriminate | simpl; lia].
  - now apply IH.
Qed.

Lemma strip_any_append (ps : list string) (s s' u : string) :
  strings.strip_any ps s = Some s' ->
  strings.strip_any ps (s ++ u) <> None.
Proof.
  induction ps as [|p ps IH]; simpl; intros H; [discriminate|].
  destruct (strings.strip_prefix p s) as [x|] eqn:E.
  - now rewrite (strip_prefix_append p s x u E).
  - destruct (strings.strip_prefix p (s ++ u)); [discriminate | auto].
Qed.

(** With enough steps, nothing is left to strip. *)
Lemma trim_done (ps : list string) (n : nat) :
  forallb nonempty ps = true ->
  forall s, (String.length s <= n)%nat ->
            strings.strip_any ps (strings.trim ps n s) = None.
Proof.
  intros Hne. induction n as [|n IH]; intros s Hn; simpl.
  - destruct (strings.strip_any ps s) as [x|] eqn:E; [|reflexivity].
    apply strip_any_shorter in E; [lia | assumption].
  - destruct (strings.strip_any ps s) as [x|] eqn:E; [|assumption].
    apply IH. apply strip_any_shorter in E; [lia | assumption].
Qed.

(** What [trim] returns is the end of its argument. *)
Lemma trim_suffix (ps : list string) (n : nat) :
  forall s, exists pre, s = pre ++ strings.trim ps n s.
Proof.
  induction n as [|n IH]; intros s; simpl.
  - now exists "".
  - destruct (strings.strip_any ps s) as [x|] eqn:E; [|now exists ""].
    destruct (IH x) as [pre Hpre].
    assert (exists q, s = q ++ x) as [q ->].
    { clear -E. induction ps as [|p ps IHp]; simpl in E; [discriminate|].
      destruct (strings.strip_prefix p s) as [y|] eqn:F; [|auto].
      injection E as ->. exists p. now apply strip_prefix_sound. }
    exists (q ++ pre). rewrite append_assoc. now rewrite <- Hpre.
Qed.

Lemma space_nonempty : forallb nonempty strings.space = true.
Proof. vm_compute. reflexivity. Qed.

Lemma space_rev_nonempty : forallb nonempty strings.space_rev = true.
Proof. vm_compute. reflexivity. Qed.

Lemma TrimLeft_no_leading_space (s : string) :
  strings.leading_space (strings.TrimLeft s) = false.
Proof.
  unfold strings.leading_space, strings.TrimLeft.
  rewrite trim_done; auto using space_nonempty.
Qed.

Lemma TrimRight_no_trailing_space (s : string) :
  strings.trailing_space (strings.TrimRight s) = false.
Proof.
  unfold strings.trailing_space, strings.TrimRight.
  rewrite rev_involutive, trim_done; auto using space_rev_nonempty.
  rewrite length_rev. lia.
Qed.

Lemma TrimRight_prefix (s : string) :
  exists u, s = strings.TrimRight s ++ u.
Proof.
  unfold strings.TrimRight.
  destruct (trim_suffix strings.space_rev (String.length s) (Str.rev s))
    as [pre H].
  exists (Str.rev pre).
  rewrite <- rev_append, <- H. symmetry. apply rev_involutive.
Qed.

Lemma leading_space_append (p u : string) :
  strings.leading_space (p ++ u) = false ->
  strings.leading_space p = false.
Proof.
  unfold strings.leading_space. intros H.
  destruct (strings.strip_any strings.space p) as [x|] eqn:E; [|reflexivity].
  apply (strip_any_append _ _ _ u) in E.
  destruct (strings.strip_any strings.space (p ++ u)); [discriminate|].
  now elim E.
Qed.

(** What [TrimSpace] returns neither starts nor ends with white space. *)
Lemma TrimSpace_trimmed (s : string) :
  strings.leading_space (strings.TrimSpace s) = false /\
  strings.trailing_space (strings.TrimSpace s) = false.
Proof.
  unfold strings.TrimSpace. split.
  - destruct (TrimRight_prefix (strings.TrimLeft s)) as [u Hu].
    apply leading_space_append with (u := u).
    rewrite <- Hu. apply TrimLeft_no_leading_space.
  - apply TrimRight_no_trailing_space.
Qed.

(** ** The conversations through [Update] *)

Lemma append_to_current_nth (i : string) (retitle : bool)
    (msg : models.Message) (cs : list models.Conversation) (k : nat) :
  nth_error (fst (ui.append_to_current i retitle msg cs)) k
  = match nth_error cs k with
    | Some c => Some (if first_with_id i cs k
                      then ui.append_message retitle msg c else c)
    | None => None
    end.
Proof.
  unfold first_with_id. revert k.
  induction cs as [|c cs IH]; intros k; cbn [ui.append_to_current].
  - destruct k; reflexivity.
  - cbn [ui.find_index].
    destruct (String.eqb (models.ID c) i) eqn:E.
    + destruct k; cbn [fst nth_error Nat.eqb]; [reflexivity|].
      destruct (nth_error cs k); reflexivity.
    + specialize (IH (Nat.pred k)).
      destruct (ui.append_to_current i retitle msg cs) as [cs' r].
      cbn [fst] in *.
      destruct k as [|k]; cbn [nth_error].
      * destruct (ui.find_index _ cs); reflexivity.
      * cbn [Nat.pred] in IH. rewrite IH.
        destruct (nth_error cs k); [|reflexivity].
        destruct (ui.find_index _ cs); reflexivity.
Qed.

Lemma append_to_current_snd (i : string) (retitle : bool)
    (msg : models.Message) (cs : list models.Conversation) :
  snd (ui.append_to_current i retitle msg cs)
  = option_map (ui.append_message retitle msg)
      (find (fun c => String.eqb (models.ID c) i) cs).
Proof.
  induction cs as [|c cs IH]; cbn [ui.append_to_current find];
    [reflexivity|].
  destruct (String.eqb (models.ID c) i); [reflexivity|].
  destruct (ui.append_to_current i retitle msg cs). exact IH.
Qed.

Lemma append_to_current_ids (i : string) (retitle : bool)
    (msg : models.Message) (cs : list models.Conversation) :
  map models.ID (fst (ui.append_to_current i retitle msg cs))
  = map models.ID cs.
Proof.
  induction cs as [|c cs IH]; cbn [ui.append_to_current]; [reflexivity|].
  destruct (String.eqb (models.ID c) i); [reflexivity|].
  destruct (ui.append_to_current i retitle msg cs).
  cbn [fst map] in *. now rewrite IH.
Qed.

Section Session.

Variable textarea_Update : ui.Textarea -> ui.Msg -> ui.Textarea.
Variable list_Update : ui.ConvList -> ui.Msg -> ui.ConvList.

Abbreviation Update := (ui.Update textarea_Update list_Update).
Abbreviation update_children := (ui.update_children textarea_Update list_Update).

Lemma update_children_conversations (m : ui.Model) (msg : ui.Msg) :
  ui.conversations (fst (update_children m msg)) = ui.conversations m.
Proof.
  unfold ui.update_children. cbv zeta.
  destruct (ui.focus m) eqn:F; cbn; rewrite ?F; reflexivity.
Qed.

Lemma save_conversations (env : ui.Env) (c : models.Conversation)
    (m : ui.Model) :
  ui.conversations (ui.save env c m) = ui.conversations m.
Proof.
  unfold ui.save, storage.SaveConversation. destruct (ui.io env); reflexivity.
Qed.

Lemma add_message_conversations (env : ui.Env) (retitle : bool)
    (msg : models.Message) (m : ui.Model) :
  ui.conversations (ui.add_message env retitle msg m)
  = fst (ui.append_to_current (ui.currentConvID m) retitle msg
           (ui.conversations m)).
Proof.
  unfold ui.add_message.
  destruct (ui.append_to_current _ _ _ _) as [cs [c|]]; cbn [fst];
    [apply save_conversations | reflexivity].
Qed.

Lemma Update_conversations (m : ui.Model) (msg : ui.Msg) (env : ui.Env) :
  ui.conversations (fst (Update m msg env)) = conversations_after m msg env.
Proof.
  unfold ui.Update, conversations_after, submits.
  destruct msg as [w h|k r|content e|].
  - rewrite update_children_conversations. destruct (ui.ready m); reflexivity.
  - destruct k; try reflexivity;
      try (rewrite update_children_conversations; reflexivity).
    + rewrite update_children_conversations. destruct (ui.focus m); reflexivity.
    + rewrite update_children_conversations. cbn.
      apply save_conversations.
    + destruct (ui.focus m).
      * destruct (ui.SelectedItem (ui.convList m));
          rewrite update_children_conversations; reflexivity.
      * destruct (negb (ui.loading m) && _); cbn [fst].
        -- cbn. apply add_message_conversations.
        -- apply update_children_conversations.
  - rewrite update_children_conversations. cbn.
    destruct e; [reflexivity|]. rewrite add_message_conversations.
    reflexivity.
  - apply update_children_conversations.
Qed.

End Session.

(** ** The sidebar preview *)

Lemma last_snoc_default {A} (x d : A) (l l' : list A) (y : A) :
  x :: l = (l' ++ [y])%list -> last l x = y.
Proof.
  intros H.
  assert (E : last (x :: l) d = last l x).
  { clear H. revert x d. induction l as [|z l IH]; intros x d;
      [reflexivity|].
    change (last (x :: z :: l) d) with (last (z :: l) d).
    now rewrite (IH z d), (IH z x). }
  rewrite <- E, H. apply last_last.
Qed.

(** C9.  [Description] of a conversation without messages is
    "New conversation".  Otherwise it is the content of the last message:
    as it is when that has at most 50 runes, and cut to its first 47 runes
    followed by "..." when it has more, which makes exactly 50 runes. *)
Theorem Description_preview (c : models.Conversation) :
  (models.Messages c = [] -> models.Description c = "New conversation") /\
  (forall ms m, models.Messages c = (ms ++ [m])%list ->
     let preview := models.Content m in
     ((utf8.RuneCountInString preview <= 50)%nat ->
        models.Description c = preview) /\
     ((50 < utf8.RuneCountInString preview)%nat ->
        models.Description c
          = utf8.string_of_runes (firstn 47 (utf8.runes preview)) ++ "..."
        /\ utf8.runes (models.Description c)
          = (firstn 47 (utf8.runes preview) ++ [46; 46; 46])%list
        /\ utf8.RuneCountInString (models.Description c) = 50%nat)).
Proof.
  unfold models.Description. split.
  - intros ->. reflexivity.
  - intros ms m E. destruct (models.Messages c) as [|m0 ms0] eqn:M.
    + destruct ms; discriminate.
    + rewrite (last_snoc_default m0 m0 ms0 ms m E). cbv zeta. split; intros H.
      * now apply ellipsize_short.
      * split; [now apply ellipsize_long|].
        split; [now apply runes_ellipsize_long|].
        apply RuneCount_ellipsize_long; [assumption | lia].
Qed.

(** ** ORDER BY *)

Section OrderBy.

Context {A : Type} (key : A -> Z).

Lemma insert_by_perm (x : A) (l : list A) :
  Permutation (storage.insert_by key x l) (x :: l).
Proof.
  induction l as [|y l IH]; cbn [storage.insert_by]; [reflexivity|].
  destruct (key x <=? key y); [reflexivity|].
  rewrite IH. apply perm_swap.
Qed.

Lemma order_by_perm (l : list A) : Permutation (storage.order_by key l) l.
Proof.
  induction l as [|x l IH]; cbn [storage.order_by fold_right];
    [reflexivity|].
  fold (storage.order_by key l). rewrite insert_by_perm. now constructor.
Qed.

Lemma insert_by_sorted (x : A) (l : list A) :
  ascending key l -> ascending key (storage.insert_by key x l).
Proof.
  unfold ascending. induction 1 as [|y l Hl IH Hy];
    cbn [storage.insert_by].
  - repeat constructor.
  - destruct (Z.leb_spec (key x) (key y)) as [L|L].
    + repeat constructor; assumption.
    + constructor; [assumption|].
      destruct l as [|z l]; cbn [storage.insert_by] in *.
      * constructor. lia.
      * destruct (key x <=? key z); constructor;
          [lia | now inversion Hy].
Qed.

Lemma order_by_sorted (l : list A) : ascending key (storage.order_by key l).
Proof.
  induction l as [|x l IH]; cbn [storage.order_by fold_right].
  - constructor.
  - now apply insert_by_sorted.
Qed.

(** Rows that already come in strictly ascending order are returned as
    they are. *)
Lemma order_by_strictly_ascending (l : list A) :
  strictly_ascending key l -> storage.order_by key l = l.
Proof.
  unfold strictly_ascending. induction 1 as [|x l Hl IH Hx];
    cbn [storage.order_by fold_right]; [reflexivity|].
  fold (storage.order_by key l). rewrite IH.
  destruct Hx as [|y l Hxy]; cbn [storage.insert_by]; [reflexivity|].
  destruct (Z.leb_spec (key x) (key y)); [reflexivity | lia].
Qed.

End OrderBy.

Lemma order_by_map {A B} (f : A -> B) (key : B -> Z) (l : list A) :
  map f (storage.order_by (fun x => key (f x)) l)
  = storage.order_by key (map f l).
Proof.
  induction l as [|x l IH]; cbn [storage.order_by fold_right map];
    [reflexivity|].
  fold (storage.order_by (fun x => key (f x)) l).
  fold (storage.order_by key (map f l)). rewrite <- IH.
  generalize (storage.order_by (fun x => key (f x)) l). intros s.
  induction s as [|y s IHs]; cbn [storage.insert_by map]; [reflexivity|].
  destruct (key (f x) <=? key (f y)); cbn [map]; [reflexivity|].
  now rewrite IHs.
Qed.

Lemma filter_map_commute {A B} (f : A -> B) (p : B -> bool) (l : list A) :
  map f (filter (fun x => p (f x)) l) = filter p (map f l).
Proof.
  induction l as [|x l IH]; cbn [filter map]; [reflexivity|].
  destruct (p (f x)); cbn [map]; now rewrite IH.
Qed.

Lemma ascending_map {A B} (f : A -> B) (key : B -> Z) (l : list A) :
  ascending (fun x => key (f x)) l -> ascending key (map f l).
Proof.
  unfold ascending. induction 1 as [|x l Hl IH Hx]; cbn [map];
    constructor; [assumption|].
  destruct Hx; cbn [map]; constructor; assumption.
Qed.

(** ** The store after [SaveConversation] *)

Lemma filter_idempotent {A} (p : A -> bool) (l : list A) :
  filter p (filter p l) = filter p l.
Proof.
  induction l as [|x l IH]; cbn [filter]; [reflexivity|].
  destruct (p x) eqn:E; cbn [filter]; rewrite ?E, IH; reflexivity.
Qed.

Lemma filter_none {A} (p : A -> bool) (l : list A) :
  existsb p l = false -> filter (fun x => negb (p x)) l = l.
Proof.
  induction l as [|x l IH]; cbn [existsb filter]; [reflexivity|].
  intros H. apply orb_false_iff in H. destruct H as [-> H].
  cbn [negb]. now rewrite IH.
Qed.

Lemma insert_messages_spec (i : string) (msgs : list models.Message)
    (d : storage.Database) :
  let d' := fold_left (fun acc msg => storage.insert_message i msg acc)
                      msgs d in
  storage.conversations d' = storage.conversations d /\
  storage.messages d'
  = (storage.messages d ++ new_rows i (storage.sequence d) msgs)%list /\
  storage.sequence d' = storage.sequence d + Z.of_nat (List.length msgs) /\
  storage.foreign_keys d' = storage.foreign_keys d.
Proof.
  revert d. induction msgs as [|m msgs IH]; intros d; cbn [fold_left].
  - cbn. rewrite app_nil_r. repeat split. lia.
  - destruct (IH (storage.insert_message i m d)) as (H1 & H2 & H3 & H4).
    cbv zeta. rewrite H1, H2, H3, H4. cbn [storage.insert_message
      storage.conversations storage.messages storage.sequence
      storage.foreign_keys new_rows List.length].
    rewrite <- app_assoc. repeat split. lia.
Qed.

Lemma save_tx_conversations (now : time.Time) (c : models.Conversation)
    (d : storage.Database) :
  storage.conversations (storage.save_tx now c d)
  = (filter (other_conv (models.ID c)) (storage.conversations d)
     ++ [conv_row now c])%list.
Proof.
  unfold storage.save_tx.
  destruct (insert_messages_spec (models.ID c) (models.Messages c)
    (storage.delete_messages (models.ID c)
       (storage.insert_or_replace (conv_row now c) d))) as (H & _).
  cbv zeta in H. unfold conv_row in H at 1. rewrite H. clear H.
  cbn [storage.delete_messages storage.conversations
       storage.insert_or_replace].
  f_equal. cbn [conv_row storage.id].
  destruct (existsb _ _) eqn:E.
  - unfold storage.delete_conversation.
    destruct (storage.foreign_keys d); reflexivity.
  - symmetry. apply filter_none. exact E.
Qed.

Lemma save_tx_messages (now : time.Time) (c : models.Conversation)
    (d : storage.Database) :
  storage.messages (storage.save_tx now c d)
  = (filter (other_msg (models.ID c)) (storage.messages d)
     ++ new_rows (models.ID c) (storage.sequence d)
          (models.Messages c))%list.
Proof.
  unfold storage.save_tx.
  destruct (insert_messages_spec (models.ID c) (models.Messages c)
    (storage.delete_messages (models.ID c)
       (storage.insert_or_replace (conv_row now c) d))) as (_ & H & _).
  cbv zeta in H. unfold conv_row in H at 1. rewrite H. clear H.
  cbn [storage.delete_messages storage.messages storage.sequence
       storage.insert_or_replace conv_row storage.id].
  f_equal.
  - destruct (existsb _ _); [|reflexivity].
    unfold storage.delete_conversation.
    destruct (storage.foreign_keys d); [|reflexivity].
    cbn [storage.delete_messages storage.messages].
    apply filter_idempotent.
  - f_equal. destruct (existsb _ _); [|reflexivity].
    unfold storage.delete_conversation.
    destruct (storage.foreign_keys d); reflexivity.
Qed.

Lemma save_tx_sequence (now : time.Time) (c : models.Conversation)
    (d : storage.Database) :
  storage.sequence (storage.save_tx now c d)
  = storage.sequence d + Z.of_nat (List.length (models.Messages c)).
Proof.
  unfold storage.save_tx.
  destruct (insert_messages_spec (models.ID c) (models.Messages c)
    (storage.delete_messages (models.ID c)
       (storage.insert_or_replace (conv_row now c) d))) as (_ & _ & H & _).
  cbv zeta in H. unfold conv_row in H at 1. rewrite H. clear H.
  cbn [storage.delete_messages storage.sequence storage.insert_or_replace
       conv_row storage.id].
  f_equal. destruct (existsb _ _); [|reflexivity].
  unfold storage.delete_conversation.
  destruct (storage.foreign_keys d); reflexivity.
Qed.

Lemma new_rows_columns (i : string) (n : Z) (msgs : list models.Message) :
  map msg_columns (new_rows i n msgs)
  = map (fun m => (i, models.Role m, models.Content m, models.Time m)) msgs.
Proof.
  revert n. induction msgs as [|m msgs IH]; intros n; cbn [new_rows map];
    [reflexivity|].
  now rewrite IH.
Qed.

Lemma new_rows_of_conv (i : string) (n : Z) (msgs : list models.Message) :
  filter (storage.of_conv i) (new_rows i n msgs) = new_rows i n msgs /\
  filter (other_msg i) (new_rows i n msgs) = [].
Proof.
  revert n. induction msgs as [|m msgs IH]; intros n;
    cbn [new_rows filter]; [split; reflexivity|].
  unfold other_msg, storage.of_conv. cbn [storage.conversation_id].
  rewrite String.eqb_refl. cbn [negb].
  destruct (IH (n + 1)) as [H1 H2]. split; [now f_equal | exact H2].
Qed.

Lemma new_rows_scan (i : string) (n : Z) (msgs : list models.Message) :
  map storage.scan_message (new_rows i n msgs) = msgs.
Proof.
  revert n. induction msgs as [|m msgs IH]; intros n; cbn [new_rows map];
    [reflexivity|].
  rewrite IH. destruct m. reflexivity.
Qed.

Lemma new_rows_length (i : string) (n : Z) (msgs : list models.Message) :
  List.length (new_rows i n msgs) = List.length msgs.
Proof.
  revert n. induction msgs as [|m msgs IH]; intros n; cbn; [reflexivity|].
  now rewrite IH.
Qed.

Lemma filter_other_of_conv (i : string) (l : list storage.MsgRow) :
  filter (storage.of_conv i) (filter (other_msg i) l) = [].
Proof.
  induction l as [|r l IH]; cbn [filter]; [reflexivity|].
  unfold other_msg at 1. destruct (storage.of_conv i r) eqn:E; cbn [negb];
    [exact IH|].
  cbn [filter]. now rewrite E.
Qed.

Lemma LoadConversations_columns (d : storage.Database) :
  fst (storage.LoadConversations None d) = load_columns (stored d).
Proof.
  unfold storage.LoadConversations, load_columns, stored. cbn [fst snd].
  rewrite <- (order_by_map conv_columns snd), map_map.
  apply map_ext. intros r. cbn [conv_columns fst snd]. f_equal.
  unfold storage.loadMessages. cbn [fst].
  rewrite <- (filter_map_commute msg_columns
               (fun q => String.eqb (fst (fst (fst q))) (storage.id r))).
  rewrite <- (order_by_map msg_columns snd), map_map.
  reflexivity.
Qed.

Lemma SaveConversation_ok (now : time.Time) (c : models.Conversation)
    (d : storage.Database) :
  storage.SaveConversation None now c d = (storage.save_tx now c d, None).
Proof. reflexivity. Qed.

(** C6, as amended.  Saving a conversation a second time succeeds and
    leaves the stored columns as the first save left them: the same
    conversation records and message rows in the same order, hence the
    same result of [LoadConversations], one record for the id and one
    row per message.  (The row ids of the messages and [updated_at] are
    written anew by each save.) *)
Theorem SaveConversation_twice (d : storage.Database)
    (c : models.Conversation) (t1 t2 : time.Time) :
  let d1 := fst (storage.SaveConversation None t1 c d) in
  let r2 := storage.SaveConversation None t2 c d1 in
  snd r2 = None /\
  stored (fst r2) = stored d1 /\
  fst (storage.LoadConversations None (fst r2))
  = fst (storage.LoadConversations None d1) /\
  List.length (filter (storage.of_conv (models.ID c))
                 (storage.messages (fst r2)))
  = List.length (models.Messages c) /\
  List.length (filter (storage.has_id (models.ID c))
                 (storage.conversations (fst r2))) = 1%nat.
Proof.
  cbv zeta. rewrite !SaveConversation_ok. cbn [fst snd].
  assert (S : stored (storage.save_tx t2 c (storage.save_tx t1 c d))
              = stored (storage.save_tx t1 c d)).
  { unfold stored. f_equal.
    - rewrite !save_tx_conversations, filter_app, filter_idempotent.
      cbn [filter]. unfold other_conv at 2, storage.has_id.
      cbn [conv_row storage.id]. rewrite String.eqb_refl. cbn [negb].
      rewrite app_nil_r, !map_app. reflexivity.
    - rewrite !save_tx_messages, filter_app, filter_idempotent.
      rewrite (proj2 (new_rows_of_conv _ _ _)), app_nil_r.
      rewrite !map_app, !new_rows_columns. reflexivity. }
  split; [reflexivity|]. split; [exact S|].
  split; [now rewrite !LoadConversations_columns, S|].
  split.
  - rewrite save_tx_messages, filter_app, filter_other_of_conv.
    rewrite (proj1 (new_rows_of_conv _ _ _)). cbn [app].
    apply new_rows_length.
  - rewrite save_tx_conversations, filter_app.
    assert (E : forall l, filter (storage.has_id (models.ID c))
                   (filter (other_conv (models.ID c)) l) = []).
    { induction l as [|r l IH]; cbn [filter]; [reflexivity|].
      unfold other_conv at 1.
      destruct (storage.has_id (models.ID c) r) eqn:F; cbn [negb];
        [exact IH|]. cbn [filter]. now rewrite F. }
    rewrite E. cbn [filter app]. unfold storage.has_id.
    cbn [conv_row storage.id]. rewrite String.eqb_refl. reflexivity.
Qed.

Lemma new_rows_strictly_ascending (i : string) (n : Z)
    (msgs : list models.Message) :
  strictly_ascending models.Time msgs ->
  strictly_ascending storage.sent_at (new_rows i n msgs).
Proof.
  unfold strictly_ascending. intros H. revert n.
  induction H as [|m msgs Hs IH Hm]; intros n; cbn [new_rows];
    constructor; [apply IH|].
  destruct Hm; cbn [new_rows]; constructor. assumption.
Qed.

Lemma loadMessages_after_save (now : time.Time) (c : models.Conversation)
    (d : storage.Database) :
  strictly_ascending models.Time (models.Messages c) ->
  fst (storage.loadMessages None (models.ID c) (storage.save_tx now c d))
  = models.Messages c.
Proof.
  intros H. unfold storage.loadMessages. cbn [fst].
  rewrite save_tx_messages, filter_app, filter_other_of_conv.
  rewrite (proj1 (new_rows_of_conv _ _ _)). cbn [app].
  rewrite order_by_strictly_ascending
    by now apply new_rows_strictly_ascending.
  apply new_rows_scan.
Qed.

(** C7, as amended.  When the timestamps of the messages of [c] strictly
    increase along the list, [LoadConversations] after a successful
    [SaveConversation] of [c] returns [c] itself, with the same messages
    in the same order, and no other conversation with that id; the
    conversations come in ascending order of [Created] and the messages
    of each in ascending order of [Time]. *)
Theorem LoadConversations_after_save (d : storage.Database)
    (c : models.Conversation) (now : time.Time) :
  strictly_ascending models.Time (models.Messages c) ->
  let loaded :=
    storage.LoadConversations None
      (fst (storage.SaveConversation None now c d)) in
  snd loaded = None /\
  In c (fst loaded) /\
  (forall c', In c' (fst loaded) -> models.ID c' = models.ID c -> c' = c) /\
  ascending models.Created (fst loaded) /\
  (forall c', In c' (fst loaded) -> ascending models.Time (models.Messages c')).
Proof.
  intros Hasc. cbv zeta. rewrite SaveConversation_ok. cbn [fst].
  unfold storage.LoadConversations. cbn [fst snd].
  set (d' := storage.save_tx now c d).
  set (F := fun r : storage.ConvRow => _).
  assert (HF : F (conv_row now c) = c).
  { unfold F. cbn [conv_row storage.id storage.name storage.created_at].
    unfold d'. rewrite loadMessages_after_save by assumption.
    destruct c; reflexivity. }
  split; [reflexivity|]. split; [|split; [|split]].
  - rewrite <- HF. apply in_map.
    apply (Permutation_in _ (Permutation_sym (order_by_perm _ _))).
    unfold d'. rewrite save_tx_conversations.
    apply in_or_app. right. now left.
  - intros c' Hin Hid. apply in_map_iff in Hin.
    destruct Hin as (r & <- & Hr).
    apply (Permutation_in _ (order_by_perm _ _)) in Hr.
    unfold d' in Hr. rewrite save_tx_conversations in Hr.
    apply in_app_or in Hr. destruct Hr as [Hr|[<-|[]]]; [|exact HF].
    apply filter_In in Hr. destruct Hr as [_ Hr].
    unfold other_conv, storage.has_id in Hr. cbn [F models.ID] in Hid.
    rewrite Hid, String.eqb_refl in Hr. discriminate.
  - apply ascending_map with (key := models.Created) (f := F).
    apply (order_by_sorted storage.created_at).
  - intros c' Hin. apply in_map_iff in Hin. destruct Hin as (r & <- & _).
    unfold F, storage.loadMessages. cbn [models.Messages fst].
    apply ascending_map with (key := models.Time)
                             (f := storage.scan_message).
    apply (order_by_sorted storage.sent_at).
Qed.

(** ** Deleting *)

(** On the connection [NewDatabase] opens, [DeleteConversation] never
    removes a message row. *)
Lemma DeleteConversation_keeps_messages (file : storage.Database)
    (i : string) :
  storage.messages
    (fst (storage.DeleteConversation None i (storage.NewDatabase file)))
  = storage.messages file.
Proof. reflexivity. Qed.

(** On a connection that enforces foreign keys, the rows of the deleted
    conversation go with it. *)
Lemma DeleteConversation_cascade (d : storage.Database) (i : string) :
  storage.foreign_keys d = true ->
  filter (storage.of_conv i)
    (storage.messages (fst (storage.DeleteConversation None i d))) = [].
Proof.
  intros H. cbn [storage.DeleteConversation fst].
  unfold storage.delete_conversation. rewrite H.
  cbn [storage.delete_messages storage.messages].
  apply filter_other_of_conv.
Qed.

(** Deleting an id that the store does not hold changes nothing and
    reports no error. *)
Lemma DeleteConversation_absent (file : storage.Database) (i : string) :
  existsb (storage.has_id i) (storage.conversations file) = false ->
  storage.DeleteConversation None i (storage.NewDatabase file)
  = (storage.NewDatabase file, None).
Proof.
  intros H. cbn [storage.DeleteConversation]. f_equal.
  unfold storage.delete_conversation, storage.NewDatabase,
    storage.createTables.
  cbn [storage.foreign_keys storage.conversations storage.messages
       storage.sequence].
  now rewrite filter_none.
Qed.

(** ** The other fields through [Update] *)

Section Fields.

Variable textarea_Update : ui.Textarea -> ui.Msg -> ui.Textarea.
Variable list_Update : ui.ConvList -> ui.Msg -> ui.ConvList.

Abbreviation Update := (ui.Update textarea_Update list_Update).
Abbreviation update_children :=
  (ui.update_children textarea_Update list_Update).

Lemma update_children_fields (m : ui.Model) (msg : ui.Msg) :
  let m' := fst (update_children m msg) in
  ui.loading m' = ui.loading m /\ ui.db m' = ui.db m /\
  ui.err m' = ui.err m /\ ui.viewport m' = ui.viewport m /\
  ui.currentConvID m' = ui.currentConvID m /\
  snd (update_children m msg) = ui.Batch.
Proof.
  unfold ui.update_children. cbv zeta.
  destruct (ui.focus m) eqn:F; cbn; rewrite ?F; repeat split.
Qed.

Lemma add_message_fields (env : ui.Env) (retitle : bool)
    (msg : models.Message) (m : ui.Model) :
  let m' := ui.add_message env retitle msg m in
  ui.loading m' = ui.loading m /\
  ui.currentConvID m' = ui.currentConvID m /\
  ui.focus m' = ui.focus m /\ ui.textarea m' = ui.textarea m.
Proof.
  unfold ui.add_message, ui.save, storage.SaveConversation. cbv zeta.
  destruct (ui.append_to_current _ _ _ _) as [cs [c|]];
    [destruct (ui.io env)|]; cbn; repeat split.
Qed.

Lemma Update_loading (m : ui.Model) (msg : ui.Msg) (env : ui.Env) :
  ui.loading (fst (Update m msg env))
  = match msg with
    | ui.ResponseMsg _ _ => false
    | ui.KeyMsg ui.KeyEnter _ => submits m || ui.loading m
    | _ => ui.loading m
    end.
Proof.
  unfold ui.Update, submits.
  destruct msg as [w h|k r|content e|].
  - rewrite (proj1 (update_children_fields _ _)).
    destruct (ui.ready m); reflexivity.
  - destruct k; try reflexivity;
      try (rewrite (proj1 (update_children_fields _ _)); reflexivity).
    + rewrite (proj1 (update_children_fields _ _)).
      destruct (ui.focus m); reflexivity.
    + rewrite (proj1 (update_children_fields _ _)).
      unfold ui.save, storage.SaveConversation.
      destruct (ui.io env); reflexivity.
    + destruct (ui.focus m).
      * destruct (ui.SelectedItem (ui.convList m));
          rewrite (proj1 (update_children_fields _ _)); reflexivity.
      * destruct (negb (ui.loading m) && _); cbn [fst orb].
        -- reflexivity.
        -- apply (update_children_fields m).
  - rewrite (proj1 (update_children_fields _ _)).
    destruct e; [reflexivity|]. cbn.
    apply (add_message_fields env false _ (ui.set_loading false m)).
  - apply (update_children_fields m).
Qed.

Lemma Update_cmd (m : ui.Model) (msg : ui.Msg) (env : ui.Env) :
  is_send (snd (Update m msg env))
  = match msg with
    | ui.KeyMsg ui.KeyEnter _ => submits m
    | _ => false
    end /\
  is_quit (snd (Update m msg env))
  = match msg with
    | ui.KeyMsg ui.KeyCtrlC _ | ui.KeyMsg ui.KeyEsc _ => true
    | _ => false
    end.
Proof.
  unfold ui.Update, submits.
  assert (B : forall m msg, snd (update_children m msg) = ui.Batch)
    by (intros; apply update_children_fields).
  destruct msg as [w h|k r|content e|]; rewrite ?B; auto.
  destruct k; rewrite ?B; auto.
  destruct (ui.focus m).
  - destruct (ui.SelectedItem (ui.convList m)); rewrite B; auto.
  - destruct (negb (ui.loading m) && _); [|rewrite B]; auto.
Qed.

(** Enter that does not submit writes nothing to the store. *)
Lemma Update_enter_idle_db (m : ui.Model) (r : string) (env : ui.Env) :
  submits m = false ->
  ui.db (fst (Update m (ui.KeyMsg ui.KeyEnter r) env)) = ui.db m.
Proof.
  unfold ui.Update, submits. destruct (ui.focus m).
  - intros _. destruct (ui.SelectedItem (ui.convList m));
      rewrite (proj1 (proj2 (update_children_fields _ _))); reflexivity.
  - intros ->. apply (update_children_fields m).
Qed.

End Fields.

(** ** One request at a time *)

Section Backpressure.

Variable textarea_Update : ui.Textarea -> ui.Msg -> ui.Textarea.
Variable list_Update : ui.ConvList -> ui.Msg -> ui.ConvList.

Abbreviation Update := (ui.Update textarea_Update list_Update).
Abbreviation deliver := (ui.deliver textarea_Update list_Update).
Abbreviation fire := (ui.fire textarea_Update list_Update).
Abbreviation run := (ui.run textarea_Update list_Update).

Lemma submits_not_loading (m : ui.Model) :
  submits m = true -> ui.loading m = false.
Proof.
  unfold submits. destruct (ui.focus m); [discriminate|].
  destruct (ui.loading m); [discriminate | reflexivity].
Qed.

Lemma deliver_pending (s : ui.Session) (msg : ui.Msg) (env : ui.Env) :
  List.length (ui.pending (deliver s msg env))
  = (List.length (ui.pending s)
     + if is_send (snd (Update (ui.model s) msg env)) then 1 else 0)%nat.
Proof.
  unfold ui.deliver.
  destruct (Update (ui.model s) msg env) as [m' []];
    cbn [ui.pending snd is_send]; rewrite ?length_app; cbn; lia.
Qed.

Lemma deliver_model (s : ui.Session) (msg : ui.Msg) (env : ui.Env) :
  ui.model (deliver s msg env) = fst (Update (ui.model s) msg env).
Proof.
  unfold ui.deliver. destruct (Update (ui.model s) msg env); reflexivity.
Qed.

Lemma remove_nth_length {A} (k : nat) (l : list A) (x : A) :
  nth_error l k = Some x ->
  S (List.length (ui.remove_nth k l)) = List.length l.
Proof.
  revert k. induction l as [|y l IH]; intros [|k] H;
    cbn in *; try discriminate; [reflexivity|].
  now rewrite (IH k H).
Qed.

Lemma fire_in_flight (s s' : ui.Session) (ev : ui.Event) :
  in_flight s -> fire s ev = Some s' -> in_flight s'.
Proof.
  unfold in_flight, ui.fire. intros Inv H.
  destruct (ui.stopped s); [discriminate|].
  destruct ev as [msg env|k choices e env].
  - destruct (ui.is_input msg) eqn:I; [|discriminate].
    injection H as <-.
    rewrite deliver_pending, deliver_model, Update_loading, Inv.
    rewrite (proj1 (Update_cmd _ _ _ _ _)).
    destruct msg as [w h|key r|content e|]; try discriminate;
      try (destruct (ui.loading (ui.model s)); reflexivity).
    destruct key; try (destruct (ui.loading (ui.model s)); reflexivity).
    destruct (submits (ui.model s)) eqn:S.
    + rewrite (submits_not_loading _ S). reflexivity.
    + destruct (ui.loading (ui.model s)); reflexivity.
  - destruct (nth_error (ui.pending s) k) as [r|] eqn:N; [|discriminate].
    injection H as <-.
    rewrite deliver_pending, deliver_model, Update_loading.
    rewrite (proj1 (Update_cmd _ _ _ _ _)). cbn [ui.pending ui.model].
    apply remove_nth_length in N.
    destruct (ui.loading (ui.model s)); [|lia].
    unfold ui.completion. destruct e as [x|]; [|destruct choices]; lia.
Qed.

Lemma run_in_flight (evs : list ui.Event) :
  forall s s', in_flight s -> run s evs = Some s' -> in_flight s'.
Proof.
  induction evs as [|ev evs IH]; intros s s' Inv H; cbn [ui.run] in H.
  - now injection H as <-.
  - destruct (fire s ev) as [s1|] eqn:F; [|discriminate].
    exact (IH _ _ (fire_in_flight _ _ _ Inv F) H).
Qed.

Lemma start_in_flight (load_io save_io : error) (clock : time.Time)
    (file : storage.Database) :
  in_flight (start load_io save_io clock file).
Proof.
  unfold in_flight, start, ui.NewModel. cbn [ui.model ui.pending].
  destruct (storage.LoadConversations load_io _). reflexivity.
Qed.

(** C4.  In every session the program can reach, Enter pressed while a
    response is awaited changes no conversation, writes nothing to the
    store and starts no request: the requests in flight stay as they
    were, and there is at most one. *)
Theorem submit_while_awaiting_ignored (load_io save_io : error)
    (clock : time.Time) (file : storage.Database) (evs : list ui.Event)
    (s : ui.Session) (r : string) (env : ui.Env) :
  run (start load_io save_io clock file) evs = Some s ->
  ui.loading (ui.model s) = true ->
  let s' := deliver s (ui.KeyMsg ui.KeyEnter r) env in
  ui.conversations (ui.model s') = ui.conversations (ui.model s) /\
  ui.db (ui.model s') = ui.db (ui.model s) /\
  ui.pending s' = ui.pending s /\
  (List.length (ui.pending s') <= 1)%nat /\
  ui.loading (ui.model s') = true.
Proof.
  intros Hrun L. cbv zeta.
  assert (Inv : in_flight s)
    by exact (run_in_flight _ _ _ (start_in_flight _ _ _ _) Hrun).
  assert (S : submits (ui.model s) = false).
  { destruct (submits (ui.model s)) eqn:S; [|reflexivity].
    apply submits_not_loading in S. congruence. }
  assert (P : ui.pending (deliver s (ui.KeyMsg ui.KeyEnter r) env)
              = ui.pending s).
  { pose proof (proj1 (Update_cmd textarea_Update list_Update
                         (ui.model s) (ui.KeyMsg ui.KeyEnter r) env)) as C.
    rewrite S in C. unfold ui.deliver.
    destruct (Update (ui.model s) _ env) as [m' []];
      [reflexivity | discriminate | reflexivity]. }
  rewrite P, deliver_model, Update_conversations, Update_loading.
  rewrite Update_enter_idle_db by assumption.
  cbn [conversations_after]. rewrite S, L.
  unfold in_flight in Inv. rewrite L in Inv.
  repeat split; lia.
Qed.

End Backpressure.

(** ** Where a response goes *)

Section Routing.

Variable textarea_Update : ui.Textarea -> ui.Msg -> ui.Textarea.
Variable list_Update : ui.ConvList -> ui.Msg -> ui.ConvList.

Abbreviation Update := (ui.Update textarea_Update list_Update).
Abbreviation update_children :=
  (ui.update_children textarea_Update list_Update).

Lemma add_message_db (env : ui.Env) (retitle : bool)
    (msg : models.Message) (m : ui.Model) :
  ui.db (ui.add_message env retitle msg m)
  = match find (ui.is_current m) (ui.conversations m) with
    | Some c =>
      fst (storage.SaveConversation (ui.io env) (ui.now env)
             (ui.append_message retitle msg c) (ui.db m))
    | None => ui.db m
    end.
Proof.
  unfold ui.add_message.
  pose proof (append_to_current_snd (ui.currentConvID m) retitle msg
                (ui.conversations m)) as S.
  destruct (ui.append_to_current _ _ _ _) as [cs r]. cbn [snd] in S.
  subst r. unfold ui.is_current.
  destruct (find _ (ui.conversations m)) as [c|]; cbn [option_map];
    [|reflexivity].
  unfold ui.save. cbn [ui.db ui.set_conversations].
  destruct (storage.SaveConversation _ _ _ _) as [d [x|]]; reflexivity.
Qed.

(** C1, as amended.  When a response without error arrives, the Assistant
    message is appended to the first conversation whose id is the one
    current at that moment, whichever conversation the request was sent
    for; the other conversations stay as they are, and the conversation
    appended to is saved. *)
Theorem response_appended_to_current (m : ui.Model) (content : string)
    (env : ui.Env) :
  let m' := fst (Update m (ui.ResponseMsg content None) env) in
  (forall k,
     nth_error (ui.conversations m') k
     = match nth_error (ui.conversations m) k with
       | Some c =>
         Some (if first_with_id (ui.currentConvID m) (ui.conversations m) k
               then {| models.ID := models.ID c;
                       models.Name := models.Name c;
                       models.Messages :=
                         (models.Messages c
                          ++ [assistantMsg content env])%list;
                       models.Created := models.Created c |}
               else c)
       | None => None
       end) /\
  ui.db m'
  = match find (ui.is_current m) (ui.conversations m) with
    | Some c =>
      fst (storage.SaveConversation (ui.io env) (ui.now env)
             {| models.ID := models.ID c;
                models.Name := models.Name c;
                models.Messages :=
                  (models.Messages c ++ [assistantMsg content env])%list;
                models.Created := models.Created c |} (ui.db m))
    | None => ui.db m
    end.
Proof.
  cbv zeta. split.
  - intros k. rewrite Update_conversations. cbn [conversations_after].
    apply append_to_current_nth.
  - unfold ui.Update.
    rewrite (proj1 (proj2 (update_children_fields _ _ _ _))).
    cbn [ui.updateViewport ui.updateConversationList ui.db ui.set_err
         ui.set_viewport ui.set_convList].
    rewrite add_message_db. reflexivity.
Qed.

(** ** Errors of the provider *)

(** C8.  When the call of the provider fails or returns no choice, the
    message delivered to [Update] carries an error; [Update] then leaves
    every conversation and the store as they are, shows the error in the
    viewport and clears it, so that the next rendering does not show it
    again. *)
Theorem provider_failure_surfaced_once (m : ui.Model)
    (choices : list string) (e : error) (env : ui.Env) :
  e <> None \/ choices = [] ->
  exists x,
    ui.completion choices e = ui.ResponseMsg "" (Some x) /\
    let m' := fst (Update m (ui.completion choices e) env) in
    ui.conversations m' = ui.conversations m /\
    ui.db m' = ui.db m /\
    ui.loading m' = false /\
    ui.shown_error (ui.viewport m') = Some x /\
    ui.err m' = None /\
    ui.shown_error (ui.viewport (ui.updateViewport m')) = None.
Proof.
  intros H.
  assert (exists x, ui.completion choices e = ui.ResponseMsg "" (Some x))
    as [x E].
  { unfold ui.completion. destruct e as [x|]; [now exists x|].
    destruct H as [H| ->]; [now elim H | now eexists]. }
  exists x. split; [exact E|]. rewrite E. cbv zeta.
  rewrite Update_conversations, Update_loading. cbn [conversations_after].
  unfold ui.Update.
  set (M := ui.updateViewport (ui.updateConversationList
              (ui.set_err (Some x) (ui.set_loading false m)))).
  destruct (update_children_fields textarea_Update list_Update M
              (ui.ResponseMsg "" (Some x))) as (_ & D & R & V & _).
  cbv zeta in D, R, V.
  split; [reflexivity|]. split; [rewrite D; reflexivity|].
  split; [reflexivity|]. split; [rewrite V; reflexivity|].
  split; [rewrite R; reflexivity|].
  unfold ui.updateViewport at 1.
  cbn [ui.viewport ui.set_err ui.set_viewport ui.shown_error].
  rewrite R. reflexivity.
Qed.

End Routing.

(** ** The title *)

Section Title.

Variable textarea_Update : ui.Textarea -> ui.Msg -> ui.Textarea.
Variable list_Update : ui.ConvList -> ui.Msg -> ui.ConvList.

Abbreviation Update := (ui.Update textarea_Update list_Update).

Lemma append_message_name (retitle : bool) (msg : models.Message)
    (c : models.Conversation) :
  models.Name (ui.append_message retitle msg c)
  = if retitle && is_nil (models.Messages c)
    then models.ellipsize 30 27 (models.Content msg)
    else models.Name c.
Proof.
  unfold ui.append_message. cbn [models.Name].
  rewrite length_app. cbn [List.length].
  destruct retitle; [|reflexivity]. cbn [andb].
  destruct (models.Messages c) as [|x l]; cbn [List.length is_nil];
    [reflexivity|].
  replace (S (List.length l) + 1)%nat with (S (S (List.length l))) by lia.
  reflexivity.
Qed.

(** C5, as amended.  [Update] changes the name of a conversation in one
    case only: Enter submits the buffer, the conversation is the first
    one with the current id, and it has no message yet.  Its name then
    becomes the content of the submitted message, as it is when that has
    at most 30 runes, and otherwise its first 27 runes followed by "..."
    (30 runes).  No other message, and no message appended to a
    conversation that already has one, changes a name. *)
Theorem title_set_by_first_submit (m : ui.Model) (msg : ui.Msg)
    (env : ui.Env) (k : nat) (c : models.Conversation) :
  nth_error (ui.conversations m) k = Some c ->
  let text := strings.TrimSpace (ui.Value (ui.textarea m)) in
  (exists c',
     nth_error (ui.conversations (fst (Update m msg env))) k = Some c' /\
     models.ID c' = models.ID c /\
     models.Name c'
     = (if is_enter msg && submits m
           && first_with_id (ui.currentConvID m) (ui.conversations m) k
           && is_nil (models.Messages c)
        then models.ellipsize 30 27 text
        else models.Name c)) /\
  ((utf8.RuneCountInString text <= 30)%nat ->
     models.ellipsize 30 27 text = text) /\
  ((30 < utf8.RuneCountInString text)%nat ->
     utf8.runes (models.ellipsize 30 27 text)
     = (firstn 27 (utf8.runes text) ++ [46; 46; 46])%list /\
     utf8.RuneCountInString (models.ellipsize 30 27 text) = 30%nat).
Proof.
  intros Hk. cbv zeta. split; [|split].
  - rewrite Update_conversations. unfold conversations_after, is_enter.
    assert (Same : exists c', nth_error (ui.conversations m) k = Some c' /\
              models.ID c' = models.ID c /\ models.Name c' = models.Name c)
      by (exists c; auto).
    destruct msg as [w h|key r|content e|]; try exact Same.
    + destruct key; try exact Same.
      * exists c. rewrite nth_error_app1
          by (apply nth_error_Some; congruence). auto.
      * cbn [andb]. destruct (submits m); [|exact Same].
        rewrite append_to_current_nth, Hk. cbn [andb].
        destruct (first_with_id _ _ k).
        -- eexists. split; [reflexivity|]. split; [reflexivity|].
           rewrite append_message_name. reflexivity.
        -- exists c. auto.
    + destruct e; [exact Same|].
      rewrite append_to_current_nth, Hk.
      destruct (first_with_id _ _ k); [|exists c; auto].
      eexists. split; [reflexivity|]. split; reflexivity.
  - apply ellipsize_short.
  - intros H. split.
    + now apply runes_ellipsize_long.
    + apply RuneCount_ellipsize_long; [assumption | lia].
Qed.

End Title.

(** ** What the user submits *)

Section Submit.

Variable textarea_Update : ui.Textarea -> ui.Msg -> ui.Textarea.
Variable list_Update : ui.ConvList -> ui.Msg -> ui.ConvList.

Abbreviation Update := (ui.Update textarea_Update list_Update).
Abbreviation fire := (ui.fire textarea_Update list_Update).
Abbreviation run := (ui.run textarea_Update list_Update).

Lemma users_trimmed_append (i : string) (retitle : bool)
    (msg : models.Message) (cs : list models.Conversation) :
  user_ok msg -> users_trimmed cs ->
  users_trimmed (fst (ui.append_to_current i retitle msg cs)).
Proof.
  unfold users_trimmed. intros Hmsg Hcs c x Hc Hx.
  apply In_nth_error in Hc. destruct Hc as [k Hk].
  rewrite append_to_current_nth in Hk.
  destruct (nth_error cs k) as [c0|] eqn:N; [|discriminate].
  apply nth_error_In in N.
  destruct (first_with_id i cs k); injection Hk as <-.
  - cbn [ui.append_message models.Messages] in Hx.
    apply in_app_or in Hx. destruct Hx as [Hx|[<-|[]]]; eauto.
  - eauto.
Qed.

Lemma userMsg_ok (m : ui.Model) (env : ui.Env) :
  submits m = true -> user_ok (userMsg m env).
Proof.
  unfold submits, user_ok, userMsg. cbn [models.Content].
  intros S _. split; [|apply TrimSpace_trimmed].
  destruct (ui.focus m); [discriminate|].
  apply andb_true_iff in S. destruct S as [_ S].
  apply negb_true_iff in S. now apply String.eqb_neq in S.
Qed.

Lemma Update_users_trimmed (m : ui.Model) (msg : ui.Msg) (env : ui.Env) :
  users_trimmed (ui.conversations m) ->
  users_trimmed (ui.conversations (fst (Update m msg env))).
Proof.
  intros H. rewrite Update_conversations. unfold conversations_after.
  destruct msg as [w h|key r|content e|]; try exact H.
  - destruct key; try exact H.
    + intros c x Hc Hx. apply in_app_or in Hc.
      destruct Hc as [Hc|[<-|[]]]; [eauto | destruct Hx].
    + destruct (submits m) eqn:S; [|exact H].
      apply users_trimmed_append; [now apply userMsg_ok | exact H].
  - destruct e; [exact H|].
    apply users_trimmed_append; [|exact H]. intros R. discriminate.
Qed.

Lemma run_users_trimmed (evs : list ui.Event) :
  forall s s',
    users_trimmed (ui.conversations (ui.model s)) ->
    run s evs = Some s' ->
    users_trimmed (ui.conversations (ui.model s')).
Proof.
  induction evs as [|ev evs IH]; intros s s' Inv H; cbn [ui.run] in H.
  - now injection H as <-.
  - destruct (fire s ev) as [s1|] eqn:F; [|discriminate].
    apply (IH s1 s'); [|exact H]. clear IH H.
    unfold ui.fire in F. destruct (ui.stopped s); [discriminate|].
    destruct ev as [msg env|k choices e env].
    + destruct (ui.is_input msg); [|discriminate]. injection F as <-.
      rewrite deliver_model. now apply Update_users_trimmed.
    + destruct (nth_error (ui.pending s) k); [|discriminate].
      injection F as <-. rewrite deliver_model.
      now apply Update_users_trimmed.
Qed.

(** C10.  From a session whose user messages are trimmed and not empty,
    every session the program reaches is such, also after a further
    Enter.  Enter on a buffer that is blank once trimmed changes no
    conversation, writes nothing to the store and sends no request.  When
    Enter submits, the only change is one message appended to the first
    conversation with the current id: a user message whose content is the
    trimmed buffer, which is not empty. *)
Theorem submitted_message_trimmed (s0 s : ui.Session)
    (evs : list ui.Event) (r : string) (env : ui.Env) :
  users_trimmed (ui.conversations (ui.model s0)) ->
  run s0 evs = Some s ->
  let m := ui.model s in
  let res := Update m (ui.KeyMsg ui.KeyEnter r) env in
  let text := strings.TrimSpace (ui.Value (ui.textarea m)) in
  users_trimmed (ui.conversations m) /\
  users_trimmed (ui.conversations (fst res)) /\
  (text = "" ->
     ui.conversations (fst res) = ui.conversations m /\
     ui.db (fst res) = ui.db m /\
     is_send (snd res) = false) /\
  (forall k,
     nth_error (ui.conversations (fst res)) k
     = match nth_error (ui.conversations m) k with
       | Some c =>
         Some (if submits m
                  && first_with_id (ui.currentConvID m)
                       (ui.conversations m) k
               then ui.append_message true
                      {| models.Role := "user"; models.Content := text;
                         models.Time := ui.now env |} c
               else c)
       | None => None
       end) /\
  (submits m = true ->
     text <> "" /\ strings.leading_space text = false /\
     strings.trailing_space text = false).
Proof.
  intros H0 Hrun. cbv zeta.
  pose proof (run_users_trimmed evs s0 s H0 Hrun) as Hs.
  split; [exact Hs|]. split; [now apply Update_users_trimmed|].
  split; [|split].
  - intros Hblank.
    assert (S : submits (ui.model s) = false).
    { unfold submits. destruct (ui.focus (ui.model s)); [reflexivity|].
      rewrite Hblank. cbn. apply andb_false_r. }
    rewrite Update_conversations, (Update_enter_idle_db _ _ _ _ _ S).
    rewrite (proj1 (Update_cmd _ _ _ _ _)).
    cbn [conversations_after]. rewrite S. auto.
  - intros k. rewrite Update_conversations. cbn [conversations_after].
    destruct (submits (ui.model s)); cbn [andb].
    + apply append_to_current_nth.
    + destruct (nth_error _ k); reflexivity.
  - intros S. exact (userMsg_ok (ui.model s) env S eq_refl).
Qed.

End Submit.

(** * The properties on concrete runs *)

Import scenario.

Example sixty_runes :
  utf8.RuneCountInString sixty = 60%nat /\ String.length sixty = 120%nat.
Proof. split; vm_compute; reflexivity. Qed.

(** A text of 30 runes and 90 bytes is a title as it is. *)
Example thirty_euros_kept :
  models.ellipsize 30 27 "€€€€€€€€€€€€€€€€€€€€€€€€€€€€€€"
  = "€€€€€€€€€€€€€€€€€€€€€€€€€€€€€€".
Proof. vm_compute. reflexivity. Qed.

Lemma Description_preview_witness :
  (50 < utf8.RuneCountInString sixty)%nat /\
  models.Description
    (chat [hello; {| models.Role := "assistant"; models.Content := sixty;
                     models.Time := 9 * second |}])
  = forty_seven_and_dots.
Proof.
  assert (L : (50 < utf8.RuneCountInString sixty)%nat)
    by (apply Nat.ltb_lt; vm_compute; reflexivity).
  split; [exact L|].
  destruct (Description_preview
    (chat [hello; {| models.Role := "assistant"; models.Content := sixty;
                     models.Time := 9 * second |}])) as [_ H].
  destruct (H [hello] _ eq_refl) as [_ H2].
  destruct (H2 L) as [E _]. rewrite E. vm_compute. reflexivity.
Defined.

(** C1: the claim fails.  The request is sent for "conv_5" (A); the user
    then selects "conv_1" (B); the answer is appended to B and A keeps
    its single message. *)
Lemma response_after_switch_goes_to_B :
  option_map view (bubbles.run fresh (submit_in_A ++ switch_to_B))
  = Some ("conv_1",
          [("conv_1", "New Chat", []);
           ("conv_5", "Hello", [("user", "Hello")])],
          [[ui.system_prompt; "Hello"]]) /\
  option_map view
    (bubbles.run fresh (submit_in_A ++ switch_to_B ++ [answer]))
  = Some ("conv_1",
          [("conv_1", "New Chat", [("assistant", "Hi there")]);
           ("conv_5", "Hello", [("user", "Hello")])],
          []).
Proof. split; vm_compute; reflexivity. Qed.

(** C5: the claim fails.  The first message appended to "conv_1" is the
    answer "Hi there", and the user's "Thanks" follows: its name is
    derived from neither and stays "New Chat". *)
Lemma title_never_derived :
  option_map view
    (bubbles.run fresh
       (submit_in_A ++ switch_to_B
        ++ [answer; type "Thanks" (10 * second);
            press ui.KeyEnter (10 * second)]))
  = Some ("conv_1",
          [("conv_1", "New Chat",
            [("assistant", "Hi there"); ("user", "Thanks")]);
           ("conv_5", "Hello", [("user", "Hello")])],
          [[ui.system_prompt; "Hi there"; "Thanks"]]).
Proof. vm_compute. reflexivity. Qed.

(** C3: two Ctrl+N within one second of the clock give two conversations
    the same id. *)
Theorem GenerateConvID_repeats_within_a_second :
  option_map view
    (bubbles.run fresh
       [press ui.KeyCtrlN (5 * second + 100);
        press ui.KeyCtrlN (5 * second + 900000000)])
  = Some ("conv_5",
          [("conv_1", "New Chat", []); ("conv_5", "New Chat", []);
           ("conv_5", "New Chat", [])],
          []).
Proof. vm_compute. reflexivity. Qed.

(** C2: on the connection the program opens, deleting a conversation
    leaves its message rows behind, owned by no conversation. *)
Theorem DeleteConversation_orphans_messages :
  let d := fst (storage.SaveConversation None (6 * second) (chat [hello])
                  opened) in
  let r := storage.DeleteConversation None "conv_5" d in
  snd r = None /\
  storage.conversations (fst r) = [] /\
  storage.messages (fst r)
  = [{| storage.rowid := 1; storage.conversation_id := "conv_5";
        storage.role := "user"; storage.content := "Hello";
        storage.sent_at := 6 * second |}] /\
  orphans (fst r) = storage.messages (fst r).
Proof. repeat split. Qed.

(** C6: the claim fails.  A second save gives the message row a new id:
    the store is not what one save leaves. *)
Lemma second_save_renumbers_rows :
  let d1 := fst (storage.SaveConversation None (6 * second) (chat [hello])
                   opened) in
  let d2 := fst (storage.SaveConversation None (6 * second) (chat [hello])
                   d1) in
  map storage.rowid (storage.messages d1) = [1] /\
  map storage.rowid (storage.messages d2) = [2] /\
  d2 <> d1.
Proof.
  cbv zeta. split; [reflexivity|]. split; [reflexivity|].
  intros H. apply (f_equal storage.sequence) in H. discriminate H.
Qed.

(** C7: the claim fails.  Messages whose times decrease along the list
    are loaded in the opposite order. *)
Lemma load_orders_by_time_not_position :
  map models.Messages
    (fst (storage.LoadConversations None
            (fst (storage.SaveConversation None (9 * second)
                    (chat [hi_there; hello]) opened))))
  = [[hello; hi_there]].
Proof. reflexivity. Qed.

Lemma LoadConversations_after_save_witness :
  strictly_ascending models.Time (models.Messages (chat [hello; hi_there]))
  /\ In (chat [hello; hi_there])
        (fst (storage.LoadConversations None
                (fst (storage.SaveConversation None (9 * second)
                        (chat [hello; hi_there]) opened)))).
Proof.
  assert (A : strictly_ascending models.Time
                (models.Messages (chat [hello; hi_there]))).
  { unfold strictly_ascending. cbn. repeat constructor. }
  split; [exact A|].
  apply (LoadConversations_after_save opened (chat [hello; hi_there])
           (9 * second) A).
Defined.

Lemma submit_while_awaiting_ignored_witness :
  bubbles.run fresh submit_in_A = Some awaiting /\
  ui.loading (ui.model awaiting) = true /\
  ui.pending (bubbles.deliver awaiting (ui.KeyMsg ui.KeyEnter "")
                (at_ (7 * second)))
  = ui.pending awaiting.
Proof.
  assert (R : bubbles.run fresh submit_in_A = Some awaiting)
    by (vm_compute; reflexivity).
  split; [exact R|]. split; [reflexivity|].
  apply (submit_while_awaiting_ignored bubbles.textarea_Update
           bubbles.list_Update None None (1 * second) storage.empty_file
           submit_in_A awaiting "" (at_ (7 * second)) R eq_refl).
Defined.

Lemma title_set_by_first_submit_witness :
  nth_error (ui.conversations (ui.model fresh)) 0
  = Some (ui.NewConversation (1 * second) "New Chat") /\
  option_map models.Name
    (nth_error
       (ui.conversations
          (fst (bubbles.Update
                  (ui.set_textarea {| ui.Value := sixty; ui.focused := true |}
                     (ui.model fresh))
                  (ui.KeyMsg ui.KeyEnter "") (at_ (2 * second))))) 0)
  = Some twenty_seven_and_dots.
Proof.
  split; [reflexivity|].
  destruct (title_set_by_first_submit bubbles.textarea_Update
              bubbles.list_Update
              (ui.set_textarea {| ui.Value := sixty; ui.focused := true |}
                 (ui.model fresh))
              (ui.KeyMsg ui.KeyEnter "") (at_ (2 * second)) 0
              (ui.NewConversation (1 * second) "New Chat") eq_refl)
    as [(c' & N & _ & Nm) _].
  unfold bubbles.Update. rewrite N. cbn [option_map]. rewrite Nm.
  vm_compute. reflexivity.
Defined.

Lemma provider_failure_surfaced_once_witness :
  (@None string <> None \/ @nil string = []) /\
  ui.conversations
    (fst (bubbles.Update (ui.model awaiting) (ui.completion [] None)
            (at_ (9 * second))))
  = ui.conversations (ui.model awaiting) /\
  ui.shown_error
    (ui.viewport
       (fst (bubbles.Update (ui.model awaiting) (ui.completion [] None)
               (at_ (9 * second)))))
  = Some "no response from API".
Proof.
  assert (H : @None string <> None \/ @nil string = []) by (right; reflexivity).
  split; [exact H|].
  destruct (provider_failure_surfaced_once bubbles.textarea_Update
              bubbles.list_Update (ui.model awaiting) [] None
              (at_ (9 * second)) H) as (x & E & C & _ & _ & V & _).
  split; [exact C|].
  unfold bubbles.Update. rewrite V. f_equal.
  injection E as <-. reflexivity.
Defined.

Lemma submitted_message_trimmed_witness :
  users_trimmed (ui.conversations (ui.model fresh)) /\
  bubbles.run fresh submit_in_A = Some awaiting /\
  users_trimmed (ui.conversations (ui.model awaiting)).
Proof.
  assert (T : users_trimmed (ui.conversations (ui.model fresh))).
  { intros c msg [<-|[]] []. }
  assert (R : bubbles.run fresh submit_in_A = Some awaiting)
    by (vm_compute; reflexivity).
  split; [exact T|]. split; [exact R|].
  apply (submitted_message_trimmed bubbles.textarea_Update
           bubbles.list_Update fresh awaiting submit_in_A ""
           (at_ (7 * second)) T R).
Defined.

(** * Further properties *)

(** ** Previews and titles *)

Lemma string_of_runes_app (rs rs' : list rune) :
  utf8.string_of_runes (rs ++ rs')
  = utf8.string_of_runes rs ++ utf8.string_of_runes rs'.
Proof.
  induction rs as [|r rs IH]; cbn [utf8.string_of_runes app];
    [reflexivity|].
  now rewrite IH, append_assoc.
Qed.

Lemma RuneCount_ellipsize_le (limit keep : nat) (text : string) :
  (keep + 3 <= limit)%nat ->
  (utf8.RuneCountInString (models.ellipsize limit keep text) <= limit)%nat.
Proof.
  intros H.
  destruct (Nat.le_gt_cases (utf8.RuneCountInString text) limit) as [L|L].
  - now rewrite ellipsize_short.
  - unfold utf8.RuneCountInString in *.
    rewrite runes_ellipsize_long by assumption.
    rewrite length_app, length_firstn. cbn. lia.
Qed.

(** The preview in the sidebar never has more than 50 runes, whatever the
    conversation holds. *)
Theorem Description_at_most_50_runes (c : models.Conversation) :
  (utf8.RuneCountInString (models.Description c) <= 50)%nat.
Proof.
  unfold models.Description.
  destruct (models.Messages c) as [|m ms].
  - apply Nat.leb_le. vm_compute. reflexivity.
  - apply RuneCount_ellipsize_le. lia.
Qed.

(** A long preview of a well-formed text is cut between two characters:
    it is a prefix of the bytes of the text, 47 runes long and itself
    well-formed, followed by the three dots. *)
Theorem Description_cuts_between_characters (c : models.Conversation)
    (ms : list models.Message) (m : models.Message) :
  models.Messages c = (ms ++ [m])%list ->
  well_formed (models.Content m) ->
  (50 < utf8.RuneCountInString (models.Content m))%nat ->
  exists head tail,
    models.Content m = head ++ tail /\
    models.Description c = head ++ "..." /\
    utf8.RuneCountInString head = 47%nat /\
    well_formed head.
Proof.
  intros E W L.
  exists (utf8.string_of_runes (firstn 47 (utf8.runes (models.Content m)))),
         (utf8.string_of_runes (skipn 47 (utf8.runes (models.Content m)))).
  assert (V : valid_runes (firstn 47 (utf8.runes (models.Content m))))
    by apply valid_runes_firstn, runes_valid.
  assert (R : utf8.runes (utf8.string_of_runes
                (firstn 47 (utf8.runes (models.Content m))))
              = firstn 47 (utf8.runes (models.Content m))).
  { rewrite <- (append_nil_r (utf8.string_of_runes _)).
    rewrite runes_string_of_runes by exact V. apply app_nil_r. }
  split; [|split; [|split]].
  - rewrite <- string_of_runes_app, firstn_skipn. symmetry. exact W.
  - unfold models.Description.
    destruct (models.Messages c) as [|m0 ms0] eqn:M;
      [destruct ms; discriminate|].
    rewrite (last_snoc_default m0 m0 ms0 ms m E). cbv zeta.
    now apply ellipsize_long.
  - unfold utf8.RuneCountInString in *. rewrite R, length_firstn. lia.
  - unfold well_formed. now rewrite R.
Qed.

(** A long preview is well-formed UTF-8 even when the text is not: bytes
    that are no valid encoding come out as U+FFFD. *)
Theorem Description_long_is_well_formed (c : models.Conversation)
    (ms : list models.Message) (m : models.Message) :
  models.Messages c = (ms ++ [m])%list ->
  (50 < utf8.RuneCountInString (models.Content m))%nat ->
  well_formed (models.Description c).
Proof.
  intros E L. unfold well_formed, models.Description.
  destruct (models.Messages c) as [|m0 ms0] eqn:M;
    [destruct ms; discriminate|].
  rewrite (last_snoc_default m0 m0 ms0 ms m E). cbv zeta.
  rewrite runes_ellipsize_long by assumption.
  rewrite string_of_runes_app, ellipsize_long by assumption.
  reflexivity.
Qed.

(** ** Conversation ids *)

Lemma Sprintf_d_inj (a b : Z) : Sprintf_d a = Sprintf_d b -> a = b.
Proof.
  unfold Sprintf_d. intros H.
  assert (P : forall z, NilZero.int_of_string
                          (NilZero.string_of_int (Z.to_int z))
                        = Some (Z.to_int z)).
  { intros z. apply NilZero.isi; destruct z; cbn; try discriminate;
      intros [= E]; now apply Unsigned.to_uint_nonnil in E. }
  apply DecimalZ.to_int_inj.
  pose proof (P a) as Pa. rewrite H, P in Pa. now injection Pa.
Qed.

Lemma append_inj_l (p s t : string) : p ++ s = p ++ t -> s = t.
Proof.
  induction p as [|a p IH]; cbn; intros H; [exact H|].
  injection H as H. now apply IH.
Qed.

Lemma GenerateConvID_second (t1 t2 : time.Time) :
  ui.GenerateConvID t1 = ui.GenerateConvID t2 ->
  time.Unix t1 = time.Unix t2.
Proof.
  unfold ui.GenerateConvID. intros H.
  apply append_inj_l in H. now apply Sprintf_d_inj.
Qed.

(** Two readings of the clock give the same conversation id exactly when
    they fall into the same second. *)
Theorem GenerateConvID_same_iff_same_second (t1 t2 : time.Time) :
  ui.GenerateConvID t1 = ui.GenerateConvID t2
  <-> time.Unix t1 = time.Unix t2.
Proof.
  split; [apply GenerateConvID_second|].
  unfold ui.GenerateConvID. now intros ->.
Qed.

(** ** The store: what a call leaves alone *)

Lemma LoadConversations_scan (d : storage.Database) :
  fst (storage.LoadConversations None d)
  = map (scan_conversation d)
        (storage.order_by storage.created_at (storage.conversations d)).
Proof. reflexivity. Qed.

Lemma In_LoadConversations (d : storage.Database)
    (c : models.Conversation) :
  In c (fst (storage.LoadConversations None d))
  <-> exists r, In r (storage.conversations d) /\ scan_conversation d r = c.
Proof.
  rewrite LoadConversations_scan, in_map_iff. split.
  - intros (r & E & H). exists r. split; [|exact E].
    exact (Permutation_in _ (order_by_perm _ _) H).
  - intros (r & H & E). exists r. split; [exact E|].
    exact (Permutation_in _ (Permutation_sym (order_by_perm _ _)) H).
Qed.

Lemma filter_of_conv_other (i j : string) (l : list storage.MsgRow) :
  j <> i ->
  filter (storage.of_conv j) (filter (other_msg i) l)
  = filter (storage.of_conv j) l.
Proof.
  intros N. induction l as [|r l IH]; cbn [filter]; [reflexivity|].
  destruct (storage.of_conv j r) eqn:Ej.
  - assert (Ei : other_msg i r = true).
    { unfold other_msg, storage.of_conv in *.
      apply String.eqb_eq in Ej.
      destruct (String.eqb_spec (storage.conversation_id r) i);
        [congruence | reflexivity]. }
    rewrite Ei. cbn [filter]. now rewrite Ej, IH.
  - destruct (other_msg i r); cbn [filter]; rewrite ?Ej; exact IH.
Qed.

Lemma filter_of_conv_new_rows (i j : string) (n : Z)
    (msgs : list models.Message) :
  j <> i -> filter (storage.of_conv j) (new_rows i n msgs) = [].
Proof.
  intros N. revert n. induction msgs as [|m msgs IH]; intros n;
    cbn [new_rows filter]; [reflexivity|].
  unfold storage.of_conv at 1. cbn [storage.conversation_id].
  destruct (String.eqb_spec i j); [congruence | apply IH].
Qed.

Lemma loadMessages_other_save (now : time.Time) (c : models.Conversation)
    (d : storage.Database) (j : string) :
  j <> models.ID c ->
  storage.loadMessages None j (storage.save_tx now c d)
  = storage.loadMessages None j d.
Proof.
  intros N. unfold storage.loadMessages.
  rewrite save_tx_messages, filter_app, filter_of_conv_other by assumption.
  rewrite filter_of_conv_new_rows by assumption. now rewrite app_nil_r.
Qed.

Lemma loadMessages_other_delete (i j : string) (d : storage.Database) :
  j <> i ->
  storage.loadMessages None j (storage.delete_conversation i d)
  = storage.loadMessages None j d.
Proof.
  intros N. unfold storage.loadMessages, storage.delete_conversation.
  destruct (storage.foreign_keys d);
    cbn [storage.delete_messages storage.messages]; [|reflexivity].
  now rewrite (filter_of_conv_other i j).
Qed.

(** Whatever the store held for the id before, after a successful save
    loading the messages of the conversation returns the saved messages,
    each one once, in ascending order of their times. *)
Theorem saved_messages_all_loaded (d : storage.Database)
    (c : models.Conversation) (now : time.Time) :
  let msgs :=
    fst (storage.loadMessages None (models.ID c)
           (fst (storage.SaveConversation None now c d))) in
  Permutation msgs (models.Messages c) /\ ascending models.Time msgs.
Proof.
  cbv zeta. rewrite SaveConversation_ok. cbn [fst].
  unfold storage.loadMessages. cbn [fst].
  rewrite save_tx_messages, filter_app, filter_other_of_conv.
  rewrite (proj1 (new_rows_of_conv _ _ _)). cbn [app]. split.
  - rewrite <- (new_rows_scan (models.ID c) (storage.sequence d)
                  (models.Messages c)) at 2.
    apply Permutation_map, order_by_perm.
  - apply ascending_map with (key := models.Time)
                             (f := storage.scan_message).
    apply (order_by_sorted storage.sent_at).
Qed.

(** Saving one conversation changes nothing in what is loaded for the
    conversations with another id. *)
Theorem SaveConversation_keeps_others (d : storage.Database)
    (c c' : models.Conversation) (now : time.Time) :
  models.ID c' <> models.ID c ->
  In c' (fst (storage.LoadConversations None
                (fst (storage.SaveConversation None now c d))))
  <-> In c' (fst (storage.LoadConversations None d)).
Proof.
  intros N. rewrite SaveConversation_ok. cbn [fst].
  rewrite !In_LoadConversations. split; intros (r & H & E); exists r.
  - rewrite save_tx_conversations in H. apply in_app_or in H.
    assert (Hid : storage.id r <> models.ID c) by (now subst c').
    unfold scan_conversation in *.
    rewrite loadMessages_other_save in E by exact Hid.
    destruct H as [H|[<-|[]]]; [|now elim Hid].
    apply filter_In in H. now split.
  - assert (Hid : storage.id r <> models.ID c) by (now subst c').
    split.
    + rewrite save_tx_conversations. apply in_or_app. left.
      apply filter_In. split; [exact H|].
      unfold other_conv, storage.has_id.
      now destruct (String.eqb_spec (storage.id r) (models.ID c)).
    + unfold scan_conversation in *.
      now rewrite loadMessages_other_save by exact Hid.
Qed.

(** After a successful [DeleteConversation] the conversation is no longer
    loaded, and every other conversation is loaded as before; this holds
    also on a connection that leaves the message rows behind. *)
Theorem LoadConversations_after_delete (d : storage.Database) (i : string)
    (c' : models.Conversation) :
  In c' (fst (storage.LoadConversations None
                (fst (storage.DeleteConversation None i d))))
  <-> In c' (fst (storage.LoadConversations None d)) /\ models.ID c' <> i.
Proof.
  cbn [storage.DeleteConversation fst]. rewrite !In_LoadConversations.
  assert (C : storage.conversations (storage.delete_conversation i d)
              = filter (other_conv i) (storage.conversations d)).
  { unfold storage.delete_conversation.
    destruct (storage.foreign_keys d); reflexivity. }
  split.
  - intros (r & H & E). rewrite C in H. apply filter_In in H.
    destruct H as [H O].
    assert (Hid : storage.id r <> i).
    { unfold other_conv, storage.has_id in O.
      now destruct (String.eqb_spec (storage.id r) i). }
    split; [|now subst c'].
    exists r. split; [exact H|]. unfold scan_conversation in *.
    now rewrite loadMessages_other_delete in E by exact Hid.
  - intros [(r & H & E) N].
    assert (Hid : storage.id r <> i) by (now subst c').
    exists r. split.
    + rewrite C. apply filter_In. split; [exact H|].
      unfold other_conv, storage.has_id.
      now destruct (String.eqb_spec (storage.id r) i).
    + unfold scan_conversation in *.
      now rewrite loadMessages_other_delete by exact Hid.
Qed.

(** Deleting an id that the store does not hold reports no error and
    changes nothing that is loaded; on a connection without foreign keys
    it changes nothing at all. *)
Theorem DeleteConversation_missing_id (d : storage.Database) (i : string) :
  existsb (storage.has_id i) (storage.conversations d) = false ->
  let r := storage.DeleteConversation None i d in
  snd r = None /\
  storage.conversations (fst r) = storage.conversations d /\
  fst (storage.LoadConversations None (fst r))
  = fst (storage.LoadConversations None d) /\
  (storage.foreign_keys d = false -> fst r = d).
Proof.
  intros A. cbv zeta. cbn [storage.DeleteConversation fst snd].
  assert (C : storage.conversations (storage.delete_conversation i d)
              = storage.conversations d).
  { unfold storage.delete_conversation.
    destruct (storage.foreign_keys d);
      cbn [storage.delete_messages storage.conversations];
      now apply filter_none. }
  split; [reflexivity|]. split; [exact C|]. split.
  - rewrite !LoadConversations_scan, C. apply map_ext_in. intros r Hr.
    apply (Permutation_in _ (order_by_perm _ _)) in Hr.
    unfold scan_conversation. rewrite loadMessages_other_delete;
      [reflexivity|].
    intros <-. exfalso.
    assert (X : existsb (storage.has_id (storage.id r))
                  (storage.conversations d) = true).
    { apply existsb_exists. exists r. split; [exact Hr|].
      apply String.eqb_refl. }
    congruence.
  - intros F. unfold storage.delete_conversation. rewrite F.
    rewrite filter_none by exact A. destruct d. cbn in *. now subst.
Qed.

(** ** The primary key *)

Lemma NoDup_map_filter {Row Key} (key : Row -> Key) (keep : Row -> bool)
  (rows : list Row) (distinct : NoDup (map key rows)) :
  NoDup (map key (filter keep rows)).
Proof.
  induction rows as [|r rows IH]; cbn [map filter]; [constructor|].
  inversion distinct as [|k ks fresh rest]; subst.
  destruct (keep r); cbn [map]; [|now apply IH].
  constructor; [|now apply IH].
  rewrite in_map_iff. intros (r' & same & kept).
  apply filter_In in kept. apply fresh, in_map_iff.
  exists r'. tauto.
Qed.

Lemma apply_op_ids (d : storage.Database) (op : StoreOp) :
  NoDup (map storage.id (storage.conversations d)) ->
  NoDup (map storage.id (storage.conversations (apply_op d op))).
Proof.
  intros H. destruct op as [[e|] now c|[e|] i]; cbn [apply_op
    storage.SaveConversation storage.DeleteConversation fst]; try exact H.
  - rewrite save_tx_conversations, map_app. cbn [map conv_row storage.id].
    apply (Permutation_NoDup (Permutation_cons_append _ _)).
    constructor; [|now apply NoDup_map_filter].
    intros Hin. apply in_map_iff in Hin. destruct Hin as (r & E & Hr).
    apply filter_In in Hr. destruct Hr as [_ O].
    unfold other_conv, storage.has_id in O.
    rewrite E, String.eqb_refl in O. discriminate.
  - unfold storage.delete_conversation.
    destruct (storage.foreign_keys d);
      cbn [storage.delete_messages storage.conversations];
      now apply NoDup_map_filter.
Qed.

(** Whatever sequence of saves and deletes, failed or not, a client
    makes on a store with one record per id, [LoadConversations] never
    returns two conversations with the same id. *)
Theorem loaded_ids_distinct (ops : list StoreOp) (d : storage.Database) :
  NoDup (map storage.id (storage.conversations d)) ->
  NoDup (map models.ID
           (fst (storage.LoadConversations None (apply_ops ops d)))).
Proof.
  unfold apply_ops. revert d. induction ops as [|op ops IH]; intros d H;
    cbn [fold_left].
  - rewrite LoadConversations_scan, map_map. cbn [scan_conversation
      models.ID].
    apply (Permutation_NoDup
             (Permutation_map storage.id
                (Permutation_sym (order_by_perm storage.created_at
                                    (storage.conversations d))))).
    exact H.
  - apply IH. now apply apply_op_ids.
Qed.

(** ** The session: what every event keeps *)

Lemma extends_refl (c : models.Conversation) : extends c c.
Proof. repeat split. exists []. symmetry. apply app_nil_r. Qed.

Lemma extends_trans (a b c : models.Conversation) :
  extends a b -> extends b c -> extends a c.
Proof.
  intros (I1 & C1 & m1 & M1) (I2 & C2 & m2 & M2).
  split; [congruence|]. split; [congruence|].
  exists (m1 ++ m2)%list. now rewrite M2, M1, app_assoc.
Qed.

Lemma grown_refl (cs : list models.Conversation) : grown cs cs.
Proof. intros k c H. exists c. split; [exact H | apply extends_refl]. Qed.

Lemma grown_trans (a b c : list models.Conversation) :
  grown a b -> grown b c -> grown a c.
Proof.
  intros H1 H2 k x Hx. destruct (H1 k x Hx) as (y & Hy & E1).
  destruct (H2 k y Hy) as (z & Hz & E2).
  exists z. split; [exact Hz | exact (extends_trans x y z E1 E2)].
Qed.

Lemma grown_append_to_current (i : string) (retitle : bool)
    (msg : models.Message) (cs : list models.Conversation) :
  grown cs (fst (ui.append_to_current i retitle msg cs)).
Proof.
  intros k c H. rewrite append_to_current_nth, H.
  destruct (first_with_id i cs k); eexists; (split; [reflexivity|]).
  - repeat split. now exists [msg].
  - apply extends_refl.
Qed.

Section Keeps.

Variable textarea_Update : ui.Textarea -> ui.Msg -> ui.Textarea.
Variable list_Update : ui.ConvList -> ui.Msg -> ui.ConvList.

Abbreviation Update := (ui.Update textarea_Update list_Update).
Abbreviation update_children :=
  (ui.update_children textarea_Update list_Update).
Abbreviation fire := (ui.fire textarea_Update list_Update).
Abbreviation run := (ui.run textarea_Update list_Update).

Lemma Update_grown (m : ui.Model) (msg : ui.Msg) (env : ui.Env) :
  grown (ui.conversations m) (ui.conversations (fst (Update m msg env))).
Proof.
  rewrite Update_conversations. unfold conversations_after.
  destruct msg as [w h|key r|content e|]; try apply grown_refl.
  - destruct key; try apply grown_refl.
    + intros k c H. exists c. split; [|apply extends_refl].
      rewrite nth_error_app1; [exact H|].
      apply nth_error_Some. congruence.
    + destruct (submits m); [apply grown_append_to_current|].
      apply grown_refl.
  - destruct e; [apply grown_refl | apply grown_append_to_current].
Qed.

(** An invariant of [Update] is an invariant of the runs. *)
Lemma run_invariant (P : ui.Model -> Prop) :
  (forall m msg env, P m -> P (fst (Update m msg env))) ->
  forall evs s s', P (ui.model s) -> run s evs = Some s' -> P (ui.model s').
Proof.
  intros Step. induction evs as [|ev evs IH]; intros s s' H R;
    cbn [ui.run] in R.
  - now injection R as <-.
  - destruct (fire s ev) as [s1|] eqn:F; [|discriminate].
    apply (IH s1 s'); [|exact R]. clear IH R.
    unfold ui.fire in F. destruct (ui.stopped s); [discriminate|].
    destruct ev as [msg env|k choices e env].
    + destruct (ui.is_input msg); [|discriminate]. injection F as <-.
      rewrite deliver_model. now apply Step.
    + destruct (nth_error (ui.pending s) k); [|discriminate].
      injection F as <-. rewrite deliver_model. now apply Step.
Qed.

(** No event removes, reorders or rewrites what the session holds: along
    any run every conversation stays at its place with its id and
    creation time, and its messages are only added to at the end. *)
Theorem conversations_only_grow (s s' : ui.Session) (evs : list ui.Event) :
  run s evs = Some s' ->
  grown (ui.conversations (ui.model s)) (ui.conversations (ui.model s')).
Proof.
  intros R.
  apply (run_invariant
           (fun m => grown (ui.conversations (ui.model s))
                           (ui.conversations m))) with (evs := evs) (s := s);
    [|apply grown_refl|exact R].
  intros m msg env H. exact (grown_trans _ _ _ H (Update_grown m msg env)).
Qed.

Lemma Update_err (m : ui.Model) (msg : ui.Msg) (env : ui.Env) :
  ui.err m = None -> ui.err (fst (Update m msg env)) = None.
Proof.
  intros H.
  assert (U : forall m0 msg0, ui.err (fst (update_children m0 msg0))
                              = ui.err m0)
    by (intros; apply update_children_fields).
  unfold ui.Update.
  destruct msg as [w h|key r|content e|]; rewrite ?U; try exact H;
    try reflexivity.
  destruct key; rewrite ?U; try exact H; try reflexivity.
  - destruct (ui.focus m); exact H.
  - destruct (ui.focus m).
    + destruct (ui.SelectedItem (ui.convList m)); rewrite U;
        [reflexivity | exact H].
    + destruct (negb (ui.loading m) && _); [reflexivity|].
      rewrite U. exact H.
Qed.

(** Every error is rendered by the [Update] in which it occurs: in no
    session that the program reaches is an error left in [m.err]. *)
Theorem no_error_left_pending (load_io save_io : error)
    (clock : time.Time) (file : storage.Database) (evs : list ui.Event)
    (s : ui.Session) :
  run (start load_io save_io clock file) evs = Some s ->
  ui.err (ui.model s) = None.
Proof.
  intros R.
  apply (run_invariant (fun m => ui.err m = None) Update_err evs
           (start load_io save_io clock file) s); [|exact R].
  unfold start, ui.NewModel. cbn [ui.model].
  destruct (storage.LoadConversations load_io _). reflexivity.
Qed.

End Keeps.

(** ** The session: writes to the store *)

Lemma find_append_to_current (i : string) (retitle : bool)
    (msg : models.Message) (cs : list models.Conversation) :
  find (fun c => String.eqb (models.ID c) i)
       (fst (ui.append_to_current i retitle msg cs))
  = option_map (ui.append_message retitle msg)
      (find (fun c => String.eqb (models.ID c) i) cs).
Proof.
  induction cs as [|c cs IH]; cbn [ui.append_to_current find fst];
    [reflexivity|].
  destruct (String.eqb (models.ID c) i) eqn:E.
  - cbn [fst find ui.append_message models.ID]. now rewrite E.
  - destruct (ui.append_to_current i retitle msg cs) as [cs' r].
    cbn [fst find] in *. now rewrite E.
Qed.

Lemma In_append_to_current (i : string) (retitle : bool)
    (msg : models.Message) (cs : list models.Conversation)
    (c : models.Conversation) :
  find (fun c => String.eqb (models.ID c) i) cs = Some c ->
  In (ui.append_message retitle msg c)
     (fst (ui.append_to_current i retitle msg cs)).
Proof.
  induction cs as [|x cs IH]; cbn [ui.append_to_current find];
    [discriminate|].
  destruct (String.eqb (models.ID x) i).
  - intros [= ->]. now left.
  - intros H. destruct (ui.append_to_current i retitle msg cs).
    right. now apply IH.
Qed.

Section Writes.

Variable textarea_Update : ui.Textarea -> ui.Msg -> ui.Textarea.
Variable list_Update : ui.ConvList -> ui.Msg -> ui.ConvList.

Abbreviation Update := (ui.Update textarea_Update list_Update).
Abbreviation update_children :=
  (ui.update_children textarea_Update list_Update).

Lemma save_db (env : ui.Env) (c : models.Conversation) (m : ui.Model) :
  ui.db (ui.save env c m)
  = fst (storage.SaveConversation (ui.io env) (ui.now env) c (ui.db m)).
Proof.
  unfold ui.save.
  destruct (storage.SaveConversation _ _ _ _) as [d [x|]]; reflexivity.
Qed.

Lemma Update_db (m : ui.Model) (msg : ui.Msg) (env : ui.Env) :
  ui.db (fst (Update m msg env))
  = match saved_conversation m msg env with
    | Some c =>
      fst (storage.SaveConversation (ui.io env) (ui.now env) c (ui.db m))
    | None => ui.db m
    end.
Proof.
  assert (U : forall m0 msg0, ui.db (fst (update_children m0 msg0))
                              = ui.db m0)
    by (intros; apply update_children_fields).
  unfold ui.Update, saved_conversation, submits, ui.getCurrentConversation.
  destruct msg as [w h|key r|content e|]; rewrite ?U; try reflexivity.
  - destruct (ui.ready m); reflexivity.
  - destruct key; rewrite ?U; try reflexivity.
    + destruct (ui.focus m); reflexivity.
    + cbn [ui.updateViewport ui.updateConversationList ui.db ui.set_err
           ui.set_viewport ui.set_convList ui.set_focus ui.set_textarea].
      rewrite save_db. reflexivity.
    + destruct (ui.focus m).
      * destruct (ui.SelectedItem (ui.convList m)); rewrite U; reflexivity.
      * destruct (negb (ui.loading m) && _); [|now rewrite U].
        cbn [fst ui.updateViewport ui.updateConversationList ui.db
             ui.set_err ui.set_viewport ui.set_convList ui.set_loading
             ui.set_textarea].
        rewrite add_message_db.
        destruct (find _ _); reflexivity.
  - cbn [ui.updateViewport ui.updateConversationList ui.db ui.set_err
         ui.set_viewport ui.set_convList].
    destruct e; [reflexivity|]. rewrite add_message_db.
    cbn [ui.db ui.set_loading ui.conversations].
    change (ui.is_current (ui.set_loading false m)) with (ui.is_current m).
    destruct (find _ _); reflexivity.
Qed.

Lemma saved_conversation_in_memory (m : ui.Model) (msg : ui.Msg)
    (env : ui.Env) (c : models.Conversation) :
  saved_conversation m msg env = Some c ->
  In c (ui.conversations (fst (Update m msg env))).
Proof.
  rewrite Update_conversations.
  unfold saved_conversation, conversations_after,
    ui.getCurrentConversation, ui.is_current.
  destruct msg as [w h|key r|content e|]; try discriminate.
  - destruct key; try discriminate.
    + intros [= <-]. apply in_or_app. right. now left.
    + destruct (submits m); [|discriminate].
      destruct (find _ _) as [c0|] eqn:F; [|discriminate].
      intros [= <-]. now apply In_append_to_current.
  - destruct e; [discriminate|].
    destruct (find _ _) as [c0|] eqn:F; [|discriminate].
    intros [= <-]. now apply In_append_to_current.
Qed.

(** The store is written by [SaveConversation] only, with the
    conversation that was just created or appended to, which the session
    holds; resizing, moving the focus, selecting a conversation, typing,
    a response with an error and quitting leave the store alone, and no
    event deletes from it. *)
Theorem store_written_by_save_only (m : ui.Model) (msg : ui.Msg)
    (env : ui.Env) :
  match saved_conversation m msg env with
  | Some c =>
    ui.db (fst (Update m msg env))
    = fst (storage.SaveConversation (ui.io env) (ui.now env) c (ui.db m))
    /\ In c (ui.conversations (fst (Update m msg env)))
  | None =>
    ui.db (fst (Update m msg env)) = ui.db m
  end.
Proof.
  pose proof (Update_db m msg env) as D.
  pose proof (saved_conversation_in_memory m msg env) as I.
  destruct (saved_conversation m msg env) as [c|]; [|exact D].
  split; [exact D | now apply I].
Qed.

Lemma Update_shown_error (m : ui.Model) (msg : ui.Msg) (env : ui.Env)
    (c : models.Conversation) (e : string) :
  saved_conversation m msg env = Some c ->
  ui.io env = Some e ->
  ui.shown_error (ui.viewport (fst (Update m msg env)))
  = Some ("failed to save conversation: " ++ e).
Proof.
  assert (U : forall m0 msg0, ui.viewport (fst (update_children m0 msg0))
                              = ui.viewport m0)
    by (intros; apply update_children_fields).
  assert (A : forall rt x m0 c0,
             find (ui.is_current m0) (ui.conversations m0) = Some c0 ->
             ui.io env = Some e ->
             ui.err (ui.add_message env rt x m0)
             = Some ("failed to save conversation: " ++ e)).
  { intros rt x m0 c0 F Io. unfold ui.add_message.
    pose proof (append_to_current_snd (ui.currentConvID m0) rt x
                  (ui.conversations m0)) as S.
    destruct (ui.append_to_current _ _ _ _) as [cs r]. cbn [snd] in S.
    unfold ui.is_current in F. rewrite F in S. subst r.
    cbn [option_map]. unfold ui.save, storage.SaveConversation.
    rewrite Io. reflexivity. }
  unfold saved_conversation, ui.Update, submits, ui.getCurrentConversation.
  intros S Io.
  destruct msg as [w h|key r|content x|]; try discriminate.
  - destruct key; try discriminate.
    + rewrite U. cbn [ui.updateViewport ui.viewport ui.set_err
        ui.set_viewport ui.set_focus ui.set_textarea ui.shown_error
        ui.updateConversationList ui.set_convList ui.err].
      unfold ui.save, storage.SaveConversation. rewrite Io. reflexivity.
    + destruct (ui.focus m); [discriminate|].
      destruct (negb (ui.loading m) && _); [|discriminate].
      destruct (find _ _) as [c0|] eqn:F; [|discriminate].
      cbn [fst ui.updateViewport ui.viewport ui.set_err ui.set_viewport
           ui.shown_error ui.updateConversationList ui.set_convList ui.err
           ui.set_loading ui.set_textarea].
      exact (A true _ m c0 F Io).
  - destruct x; [discriminate|].
    destruct (find _ _) as [c0|] eqn:F; [|discriminate].
    rewrite U.
    cbn [ui.updateViewport ui.viewport ui.set_err ui.set_viewport
         ui.shown_error ui.updateConversationList ui.set_convList ui.err].
    exact (A false _ (ui.set_loading false m) c0 F Io).
Qed.

(** A write that fails loses nothing in memory: the session holds the new
    or extended conversation all the same, the store stays as it was, and
    the error is shown, once, as "failed to save conversation: ...". *)
Theorem failed_save_keeps_memory (m : ui.Model) (msg : ui.Msg)
    (env : ui.Env) (c : models.Conversation) (e : string) :
  saved_conversation m msg env = Some c ->
  ui.io env = Some e ->
  ui.err m = None ->
  let m' := fst (Update m msg env) in
  In c (ui.conversations m') /\
  ui.db m' = ui.db m /\
  ui.shown_error (ui.viewport m')
  = Some ("failed to save conversation: " ++ e) /\
  ui.err m' = None.
Proof.
  intros S Io E. cbv zeta.
  split; [now apply saved_conversation_in_memory|].
  split; [|split].
  - rewrite Update_db, S. unfold storage.SaveConversation. now rewrite Io.
  - exact (Update_shown_error m msg env c e S Io).
  - now apply Update_err.
Qed.

(** The request that Enter sends holds the system prompt and then the
    whole current conversation, ending with the message just submitted;
    the buffer is emptied and the session awaits the response.  Without a
    current conversation only the system prompt is sent. *)
Theorem submit_sends_whole_conversation (m : ui.Model) (r : string)
    (env : ui.Env) :
  submits m = true ->
  let res := Update m (ui.KeyMsg ui.KeyEnter r) env in
  snd res
  = ui.Send
      ({| ui.chat_role := ui.ChatMessageRoleSystem;
          ui.chat_content := ui.system_prompt |}
       :: match ui.getCurrentConversation m with
          | Some c =>
            (map ui.chat_message (models.Messages c)
             ++ [{| ui.chat_role := ui.ChatMessageRoleUser;
                    ui.chat_content :=
                      strings.TrimSpace (ui.Value (ui.textarea m)) |}])%list
          | None => []
          end) /\
  ui.Value (ui.textarea (fst res)) = "" /\
  ui.loading (fst res) = true.
Proof.
  intros S. cbv zeta. unfold ui.Update. unfold submits in S.
  destruct (ui.focus m); [discriminate|]. rewrite S.
  cbn [fst snd]. split; [|split]; [|reflexivity..].
  f_equal. unfold ui.sendMessage. f_equal.
  unfold ui.getCurrentConversation, ui.is_current.
  cbn [ui.updateViewport ui.updateConversationList ui.set_err
       ui.set_viewport ui.set_convList ui.set_textarea ui.set_loading
       ui.conversations ui.currentConvID].
  rewrite add_message_conversations.
  rewrite (proj1 (proj2 (add_message_fields env true _ m))).
  rewrite find_append_to_current.
  destruct (find _ (ui.conversations m)) as [c|]; cbn [option_map];
    [|reflexivity].
  cbn [ui.append_message models.Messages]. rewrite map_app. reflexivity.
Qed.

Lemma body_of_ext (m m' : ui.Model) :
  ui.conversations m' = ui.conversations m ->
  ui.currentConvID m' = ui.currentConvID m ->
  body_of m' = body_of m.
Proof.
  unfold body_of, ui.getCurrentConversation, ui.is_current.
  now intros -> ->.
Qed.

Lemma on_screen_ext (m m' : ui.Model) :
  ui.viewport m' = ui.viewport m ->
  ui.conversations m' = ui.conversations m ->
  ui.currentConvID m' = ui.currentConvID m ->
  ui.loading m' = ui.loading m ->
  on_screen m -> on_screen m'.
Proof.
  unfold on_screen. intros V C I L H.
  rewrite V, L, (body_of_ext m m' C I). exact H.
Qed.

Lemma on_screen_rendered (m : ui.Model) : on_screen (ui.updateViewport m).
Proof. right. split; reflexivity. Qed.

Lemma update_children_on_screen (m : ui.Model) (msg : ui.Msg) :
  on_screen m -> on_screen (fst (update_children m msg)).
Proof.
  destruct (update_children_fields textarea_Update list_Update m msg)
    as (L & _ & _ & V & I & _).
  apply on_screen_ext; try assumption.
  apply update_children_conversations.
Qed.

Lemma Update_on_screen (m : ui.Model) (msg : ui.Msg) (env : ui.Env) :
  on_screen m -> on_screen (fst (Update m msg env)).
Proof.
  intros H. unfold ui.Update.
  destruct msg as [w h|key r|content e|];
    try (apply update_children_on_screen; try exact H;
         apply on_screen_rendered).
  destruct key; try exact H;
    try (apply update_children_on_screen; exact H).
  - apply update_children_on_screen.
    destruct (ui.focus m); revert H; now apply on_screen_ext.
  - apply update_children_on_screen.
    eapply on_screen_ext; [..|apply on_screen_rendered]; reflexivity.
  - destruct (ui.focus m).
    + destruct (ui.SelectedItem (ui.convList m));
        apply update_children_on_screen; [|exact H].
      eapply on_screen_ext; [..|apply on_screen_rendered]; reflexivity.
    + destruct (negb (ui.loading m) && _);
        [apply on_screen_rendered | now apply update_children_on_screen].
Qed.

End Writes.

(** ** The session: what is on screen, and the current conversation *)

Section Screen.

Variable textarea_Update : ui.Textarea -> ui.Msg -> ui.Textarea.
Variable list_Update : ui.ConvList -> ui.Msg -> ui.ConvList.

Abbreviation Update := (ui.Update textarea_Update list_Update).
Abbreviation run := (ui.run textarea_Update list_Update).

(** From the first rendering on, the viewport shows the transcript of the
    conversation that is current (the welcome text when that has no
    message), and the typing indicator exactly while a response is
    awaited; before it, the banner set at start. *)
Theorem viewport_follows_current (load_io save_io : error)
    (clock : time.Time) (file : storage.Database) (evs : list ui.Event)
    (s : ui.Session) :
  run (start load_io save_io clock file) evs = Some s ->
  ui.body (ui.viewport (ui.model s)) = ui.Banner \/
  (ui.body (ui.viewport (ui.model s)) = body_of (ui.model s) /\
   ui.typing (ui.viewport (ui.model s)) = ui.loading (ui.model s)).
Proof.
  intros R.
  apply (run_invariant textarea_Update list_Update on_screen
           (Update_on_screen textarea_Update list_Update) evs
           (start load_io save_io clock file) s); [|exact R].
  left. unfold start, ui.NewModel. cbn [ui.model].
  destruct (storage.LoadConversations load_io _). reflexivity.
Qed.

(** The list component keeps the items it was given. *)
Hypothesis list_keeps_items :
  forall l msg, ui.items (list_Update l msg) = ui.items l.

Lemma grown_ids (cs cs' : list models.Conversation) :
  grown cs cs' -> incl (map models.ID cs) (map models.ID cs').
Proof.
  intros G i Hi. apply in_map_iff in Hi. destruct Hi as (c & <- & Hc).
  apply In_nth_error in Hc. destruct Hc as [k Hk].
  destruct (G k c Hk) as (c' & Hk' & E & _).
  apply in_map_iff. exists c'. split; [exact E|].
  now apply nth_error_In in Hk'.
Qed.

Lemma ids_known_children (m : ui.Model) (msg : ui.Msg) :
  ids_known m ->
  ids_known (fst (ui.update_children textarea_Update list_Update m msg)).
Proof.
  unfold ids_known, ui.update_children. cbv zeta.
  destruct (ui.focus m) eqn:F; cbn; rewrite ?F; cbn;
    rewrite ?list_keeps_items; auto.
Qed.

Lemma ids_known_rendered (m : ui.Model) :
  In (ui.currentConvID m) (map models.ID (ui.conversations m)) ->
  ids_known (ui.updateViewport (ui.updateConversationList m)).
Proof. intros H. split; [apply incl_refl | exact H]. Qed.

Lemma Update_ids_known (m : ui.Model) (msg : ui.Msg) (env : ui.Env) :
  ids_known m -> ids_known (fst (Update m msg env)).
Proof.
  intros [HI HC]. unfold ui.Update.
  destruct msg as [w h|key r|content e|].
  - apply ids_known_children. destruct (ui.ready m); split; assumption.
  - destruct key; try (apply ids_known_children; split; assumption).
    + split; assumption.
    + split; assumption.
    + apply ids_known_children. destruct (ui.focus m); split; assumption.
    + apply ids_known_children.
      unfold ui.save, storage.SaveConversation.
      destruct (ui.io env); unfold ids_known; cbn;
        (split; [apply incl_refl|]);
        rewrite map_app; apply in_or_app; right; now left.
    + destruct (ui.focus m).
      * destruct (ui.SelectedItem (ui.convList m)) as [c|] eqn:S;
          apply ids_known_children; [|split; assumption].
        split; [exact HI|]. cbn. apply HI.
        apply in_map. unfold ui.SelectedItem in S.
        now apply nth_error_In in S.
      * destruct (negb (ui.loading m) && _);
          [|apply ids_known_children; split; assumption].
        cbn [fst]. split; [apply incl_refl|]. cbn.
        rewrite add_message_conversations.
        rewrite (proj1 (proj2 (add_message_fields env true _ m))).
        now rewrite append_to_current_ids.
  - apply ids_known_children. split; [apply incl_refl|]. cbn.
    destruct e as [x|]; [exact HC|].
    rewrite add_message_conversations.
    rewrite (proj1 (proj2 (add_message_fields env false _ _))).
    cbn. now rewrite append_to_current_ids.
  - apply ids_known_children. split; assumption.
Qed.

Lemma start_ids_known (load_io save_io : error) (clock : time.Time)
    (file : storage.Database) :
  ids_known (ui.model (start load_io save_io clock file)).
Proof.
  unfold start, ui.NewModel. cbn [ui.model].
  destruct (storage.LoadConversations load_io _) as [cs [e|]].
  - split; [apply incl_refl | now left].
  - destruct cs as [|c cs]; (split; [apply incl_refl | now left]).
Qed.

(** With a list component that keeps its items, the current id is always
    the id of a conversation the session holds: input and responses
    always find their conversation. *)
Theorem current_conversation_exists (load_io save_io : error)
    (clock : time.Time) (file : storage.Database) (evs : list ui.Event)
    (s : ui.Session) :
  run (start load_io save_io clock file) evs = Some s ->
  exists c,
    ui.getCurrentConversation (ui.model s) = Some c /\
    models.ID c = ui.currentConvID (ui.model s).
Proof.
  intros R.
  assert (K : ids_known (ui.model s)).
  { apply (run_invariant textarea_Update list_Update ids_known
             Update_ids_known evs (start load_io save_io clock file) s);
      [apply start_ids_known | exact R]. }
  destruct K as [_ K]. unfold ui.getCurrentConversation, ui.is_current.
  induction (ui.conversations (ui.model s)) as [|c cs IH];
    [destruct K|]. cbn [find].
  destruct (String.eqb_spec (models.ID c) (ui.currentConvID (ui.model s)))
    as [E|N].
  - now exists c.
  - apply IH. destruct K as [K|K]; [now elim N | exact K].
Qed.

End Screen.

(** ** The store mirrors the session *)











Lemma In_append_to_current_cases (i : string) (retitle : bool)
    (msg : models.Message) (cs : list models.Conversation)
    (c : models.Conversation) :
  In c (fst (ui.append_to_current i retitle msg cs)) ->
  In c cs \/ exists c0, In c0 cs /\ c = ui.append_message retitle msg c0.
Proof.
  intros H. apply In_nth_error in H. destruct H as [k Hk].
  rewrite append_to_current_nth in Hk.
  destruct (nth_error cs k) as [c0|] eqn:N; [|discriminate].
  apply nth_error_In in N.
  destruct (first_with_id i cs k); injection Hk as <-; eauto.
Qed.










Section Mirror.

Variable textarea_Update : ui.Textarea -> ui.Msg -> ui.Textarea.
Variable list_Update : ui.ConvList -> ui.Msg -> ui.ConvList.

Abbreviation Update := (ui.Update textarea_Update list_Update).
Abbreviation fire := (ui.fire textarea_Update list_Update).
Abbreviation run := (ui.run textarea_Update list_Update).





End Mirror.


(** ** Titles, orphans and blank input *)

Lemma In_order_by {A} (key : A -> Z) (l : list A) (x : A) :
  In x (storage.order_by key l) -> In x l.
Proof. apply Permutation_in, order_by_perm. Qed.

Lemma new_chat_title_ok : title_ok 30 "New Chat".
Proof. apply Nat.leb_le. vm_compute. reflexivity. Qed.

Lemma append_message_title_ok (retitle : bool) (msg : models.Message)
    (c : models.Conversation) :
  title_ok 30 (models.Name c) ->
  title_ok 30 (models.Name (ui.append_message retitle msg c)).
Proof.
  intros H. unfold ui.append_message. cbn [models.Name].
  destruct (retitle && _); [|exact H].
  apply RuneCount_ellipsize_le. lia.
Qed.

Lemma save_tx_titles (now : time.Time) (c : models.Conversation)
    (d : storage.Database) :
  title_ok 30 (models.Name c) ->
  Forall (fun r => title_ok 30 (storage.name r)) (storage.conversations d) ->
  Forall (fun r => title_ok 30 (storage.name r))
         (storage.conversations (storage.save_tx now c d)).
Proof.
  intros Hc Hd. rewrite save_tx_conversations.
  apply Forall_app. split.
  - apply Forall_forall. intros r Hr. apply filter_In in Hr.
    exact (proj1 (Forall_forall _ _) Hd r (proj1 Hr)).
  - constructor; [exact Hc | constructor].
Qed.

Lemma owned_orphans (d : storage.Database) : owned d <-> orphans d = [].
Proof.
  unfold owned, orphans. split.
  - intros H.
    induction (storage.messages d) as [|r l IH]; cbn [filter];
      [reflexivity|].
    destruct (H r (or_introl eq_refl)) as (q & Hq & E).
    replace (existsb (storage.has_id (storage.conversation_id r))
                     (storage.conversations d)) with true.
    + cbn [negb]. apply IH. intros r' Hr'. apply H. now right.
    + symmetry. apply existsb_exists. exists q. split; [exact Hq|].
      unfold storage.has_id. rewrite E. apply String.eqb_refl.
  - intros H r Hr.
    destruct (existsb (storage.has_id (storage.conversation_id r))
                      (storage.conversations d)) eqn:E.
    + apply existsb_exists in E. destruct E as (q & Hq & E).
      exists q. split; [exact Hq|]. now apply String.eqb_eq.
    + assert (I : In r (filter
        (fun r0 => negb (existsb (storage.has_id (storage.conversation_id r0))
                           (storage.conversations d)))
        (storage.messages d)))
        by (apply filter_In; split; [exact Hr | now rewrite E]).
      rewrite H in I. destruct I.
Qed.

Lemma In_new_rows (i : string) (n : Z) (msgs : list models.Message)
    (r : storage.MsgRow) :
  In r (new_rows i n msgs) -> storage.conversation_id r = i.
Proof.
  revert n. induction msgs as [|m msgs IH]; intros n; cbn [new_rows In];
    [tauto|].
  intros [<-|H]; [reflexivity | exact (IH _ H)].
Qed.

(** Saving keeps every message row owned: the rows of other
    conversations keep their conversation row, and the rows written
    belong to the row written with them. *)
Lemma SaveConversation_owned (io : error) (now : time.Time)
    (c : models.Conversation) (d : storage.Database) :
  owned d -> owned (fst (storage.SaveConversation io now c d)).
Proof.
  intros H. destruct io as [e|]; cbn [storage.SaveConversation fst];
    [exact H|].
  intros r Hr. rewrite save_tx_messages in Hr.
  rewrite save_tx_conversations.
  apply in_app_or in Hr. destruct Hr as [Hr|Hr].
  - apply filter_In in Hr. destruct Hr as [Hr O].
    destruct (H r Hr) as (q & Hq & E).
    exists q. split; [|exact E].
    apply in_or_app. left. apply filter_In. split; [exact Hq|].
    unfold other_conv, storage.has_id. rewrite E. exact O.
  - apply In_new_rows in Hr.
    exists (conv_row now c). split; [|now rewrite Hr].
    apply in_or_app. right. left. reflexivity.
Qed.

(** White space is a prefix code: the encoding of a white space rune at
    the head of a text is removed whole, whatever follows it. *)
Lemma strip_any_space (r : rune) (rest : string) :
  strings.IsSpace r = true ->
  strings.strip_any strings.space (utf8.encode_rune r ++ rest) = Some rest.
Proof.
  unfold strings.IsSpace, strings.White_Space. cbn [existsb].
  intros H.
  repeat (apply orb_true_iff in H; destruct H as [H|H];
          [apply Z.eqb_eq in H; subst r; vm_compute; reflexivity|]).
  discriminate.
Qed.

Lemma trim_blank (n : nat) :
  forall rs, Forall (fun r => strings.IsSpace r = true) rs ->
    (String.length (utf8.string_of_runes rs) <= n)%nat ->
    strings.trim strings.space n (utf8.string_of_runes rs) = "".
Proof.
  induction n as [|n IH]; intros rs Hrs Hn.
  - destruct (utf8.string_of_runes rs); [reflexivity | cbn in Hn; lia].
  - destruct Hrs as [|r rs Hr Hrs]; [reflexivity|].
    cbn [utf8.string_of_runes strings.trim] in *.
    pose proof (strip_any_space r (utf8.string_of_runes rs) Hr) as E.
    rewrite E. apply IH; [exact Hrs|].
    pose proof (strip_any_shorter _ _ _ space_nonempty E). lia.
Qed.

(** [TrimSpace] of a text made of white space only is the empty
    string. *)
Lemma TrimSpace_blank (text : string) :
  blank text -> strings.TrimSpace text = "".
Proof.
  intros (rs & Hrs & ->).
  unfold strings.TrimSpace, strings.TrimLeft.
  rewrite (trim_blank _ rs Hrs (le_n _)). reflexivity.
Qed.

Section Further.

Variable textarea_Update : ui.Textarea -> ui.Msg -> ui.Textarea.
Variable list_Update : ui.ConvList -> ui.Msg -> ui.ConvList.

Abbreviation Update := (ui.Update textarea_Update list_Update).
Abbreviation deliver := (ui.deliver textarea_Update list_Update).
Abbreviation run := (ui.run textarea_Update list_Update).

Lemma Update_titles (m : ui.Model) (msg : ui.Msg) (env : ui.Env) :
  titles_within 30 m -> titles_within 30 (fst (Update m msg env)).
Proof.
  intros [Hc Hd].
  assert (C : Forall (fun c => title_ok 30 (models.Name c))
                     (ui.conversations (fst (Update m msg env)))).
  { rewrite Update_conversations. unfold conversations_after.
    assert (A : forall retitle x,
      Forall (fun c => title_ok 30 (models.Name c))
        (fst (ui.append_to_current (ui.currentConvID m) retitle x
                (ui.conversations m)))).
    { intros retitle x. apply Forall_forall. intros c Hin.
      apply In_append_to_current_cases in Hin.
      destruct Hin as [Hin|(c0 & Hin & ->)].
      - exact (proj1 (Forall_forall _ _) Hc c Hin).
      - apply append_message_title_ok.
        exact (proj1 (Forall_forall _ _) Hc c0 Hin). }
    destruct msg as [w h|key r|content e|]; try exact Hc.
    - destruct key; try exact Hc.
      + apply Forall_app. split; [exact Hc|].
        constructor; [exact new_chat_title_ok | constructor].
      + destruct (submits m); [apply A | exact Hc].
    - destruct e; [exact Hc | apply A]. }
  split; [exact C|].
  rewrite Update_db.
  destruct (saved_conversation m msg env) as [c|] eqn:S; [|exact Hd].
  destruct (ui.io env) as [x|]; cbn [storage.SaveConversation fst];
    [exact Hd|].
  apply save_tx_titles; [|exact Hd].
  apply (saved_conversation_in_memory textarea_Update list_Update) in S.
  exact (proj1 (Forall_forall _ _) C c S).
Qed.

Lemma start_titles (load_io save_io : error) (clock : time.Time)
    (file : storage.Database) :
  Forall (fun r => title_ok 30 (storage.name r))
         (storage.conversations file) ->
  titles_within 30 (ui.model (start load_io save_io clock file)).
Proof.
  intros H. unfold start, ui.NewModel. cbn [ui.model].
  set (d := storage.NewDatabase file).
  assert (L : Forall (fun c => title_ok 30 (models.Name c))
                     (fst (storage.LoadConversations load_io d))).
  { destruct load_io as [e|]; cbn [storage.LoadConversations fst];
      [constructor|].
    apply Forall_forall. intros c Hin. apply in_map_iff in Hin.
    destruct Hin as (r & <- & Hr). apply In_order_by in Hr.
    cbn [models.Name]. exact (proj1 (Forall_forall _ _) H r Hr). }
  destruct (storage.LoadConversations load_io d) as [cs e] eqn:E.
  cbn [fst] in L.
  assert (N : titles_within 30
    {| ui.viewport := {| ui.body := ui.Banner; ui.typing := false;
                         ui.shown_error := None |};
       ui.textarea := {| ui.Value := ""; ui.focused := false |};
       ui.conversations := [ui.NewConversation clock "New Chat"];
       ui.currentConvID := models.ID (ui.NewConversation clock "New Chat");
       ui.convList := {| ui.items := [ui.NewConversation clock "New Chat"];
                         ui.index := O |};
       ui.db := fst (storage.SaveConversation save_io clock
                       (ui.NewConversation clock "New Chat") d);
       ui.loading := false; ui.err := None; ui.ready := false;
       ui.focus := ui.FocusChat |}).
  { split; cbn [ui.conversations ui.db].
    - constructor; [exact new_chat_title_ok | constructor].
    - destruct save_io as [x|]; cbn [storage.SaveConversation fst];
        [exact H|].
      apply save_tx_titles; [exact new_chat_title_ok | exact H]. }
  destruct e as [x|]; [exact N|].
  destruct cs as [|c cs]; [exact N|].
  split; [exact L | exact H].
Qed.

(** The titles the program gives fit the sidebar: when no title in the
    file is longer than 30 runes, no title in the session or in the
    store is ever longer than 30 runes, whatever the user types and the
    provider answers. *)
Theorem titles_at_most_30_runes (load_io save_io : error)
    (clock : time.Time) (file : storage.Database) (evs : list ui.Event)
    (s : ui.Session) :
  Forall (fun r => title_ok 30 (storage.name r))
         (storage.conversations file) ->
  run (start load_io save_io clock file) evs = Some s ->
  titles_within 30 (ui.model s).
Proof.
  intros H R.
  apply (run_invariant textarea_Update list_Update (titles_within 30)
           Update_titles evs (start load_io save_io clock file) s);
    [|exact R].
  now apply start_titles.
Qed.

Lemma Update_owned (m : ui.Model) (msg : ui.Msg) (env : ui.Env) :
  owned (ui.db m) -> owned (ui.db (fst (Update m msg env))).
Proof.
  intros H. rewrite Update_db.
  destruct (saved_conversation m msg env); [|exact H].
  now apply SaveConversation_owned.
Qed.

(** The program leaves no orphans: the session never deletes a
    conversation row, and each save writes the message rows together
    with their conversation row.  When every message in the file belongs
    to a conversation, so does every message in the store at any point
    of the session, also after failed saves. *)
Theorem session_leaves_no_orphans (load_io save_io : error)
    (clock : time.Time) (file : storage.Database) (evs : list ui.Event)
    (s : ui.Session) :
  orphans file = [] ->
  run (start load_io save_io clock file) evs = Some s ->
  orphans (ui.db (ui.model s)) = [].
Proof.
  intros H R. apply owned_orphans.
  apply (run_invariant textarea_Update list_Update
           (fun m => owned (ui.db m)) Update_owned evs
           (start load_io save_io clock file) s); [|exact R].
  apply owned_orphans in H.
  unfold start, ui.NewModel. cbn [ui.model].
  destruct (storage.LoadConversations load_io _) as [cs [e|]];
    cbn [ui.db].
  - now apply SaveConversation_owned.
  - destruct cs; [now apply SaveConversation_owned | exact H].
Qed.

(** Enter on a buffer that holds white space only (spaces, tabs, line
    breaks, any Unicode white space) submits nothing: no message is
    added, nothing is written to the store, no request is started and
    the session does not start waiting. *)
Theorem blank_input_not_submitted (s : ui.Session) (r : string)
    (env : ui.Env) :
  blank (ui.Value (ui.textarea (ui.model s))) ->
  let s' := deliver s (ui.KeyMsg ui.KeyEnter r) env in
  ui.conversations (ui.model s') = ui.conversations (ui.model s) /\
  ui.db (ui.model s') = ui.db (ui.model s) /\
  ui.pending s' = ui.pending s /\
  ui.loading (ui.model s') = ui.loading (ui.model s) /\
  ui.stopped s' = ui.stopped s.
Proof.
  intros B. cbv zeta.
  assert (S : submits (ui.model s) = false).
  { unfold submits. rewrite (TrimSpace_blank _ B).
    destruct (ui.focus (ui.model s)); [reflexivity|].
    apply andb_false_r. }
  pose proof (Update_cmd textarea_Update list_Update
                (ui.model s) (ui.KeyMsg ui.KeyEnter r) env) as [C Q].
  rewrite S in C.
  rewrite deliver_model, Update_conversations, Update_loading.
  rewrite (Update_enter_idle_db textarea_Update list_Update _ _ _ S).
  cbn [conversations_after]. rewrite S. cbn [orb].
  unfold ui.deliver.
  destruct (Update (ui.model s) _ env) as [m' []];
    cbn [ui.pending ui.stopped]; try discriminate; repeat split.
Qed.

End Further.

(** ** The further properties on concrete inputs *)

Lemma Description_cuts_between_characters_witness :
  well_formed sixty /\
  (50 < utf8.RuneCountInString sixty)%nat /\
  exists head tail,
    sixty = head ++ tail /\
    models.Description
      (chat [hello; {| models.Role := "assistant"; models.Content := sixty;
                       models.Time := 9 * second |}])
    = head ++ "..." /\
    utf8.RuneCountInString head = 47%nat /\
    well_formed head.
Proof.
  assert (W : well_formed sixty) by (vm_compute; reflexivity).
  assert (L : (50 < utf8.RuneCountInString sixty)%nat)
    by (apply Nat.ltb_lt; vm_compute; reflexivity).
  split; [exact W|]. split; [exact L|].
  exact (Description_cuts_between_characters
           (chat [hello; {| models.Role := "assistant";
                            models.Content := sixty;
                            models.Time := 9 * second |}])
           [hello] _ eq_refl W L).
Defined.

Lemma Description_long_is_well_formed_witness :
  utf8.string_of_runes (utf8.runes garbled) <> garbled /\
  (50 < utf8.RuneCountInString garbled)%nat /\
  well_formed
    (models.Description
       (chat [{| models.Role := "user"; models.Content := garbled;
                 models.Time := 6 * second |}])).
Proof.
  assert (L : (50 < utf8.RuneCountInString garbled)%nat)
    by (apply Nat.ltb_lt; vm_compute; reflexivity).
  split; [vm_compute; discriminate|]. split; [exact L|].
  exact (Description_long_is_well_formed
           (chat [{| models.Role := "user"; models.Content := garbled;
                     models.Time := 6 * second |}])
           [] _ eq_refl L).
Defined.

Lemma GenerateConvID_same_iff_same_second_witness :
  time.Unix (5 * second + 100) = time.Unix (5 * second + 900000000) /\
  ui.GenerateConvID (5 * second + 100)
  = ui.GenerateConvID (5 * second + 900000000).
Proof.
  split; [reflexivity|].
  exact (proj2 (GenerateConvID_same_iff_same_second (5 * second + 100)
                  (5 * second + 900000000)) eq_refl).
Defined.

Lemma SaveConversation_keeps_others_witness :
  models.ID first_chat <> models.ID (chat [hello]) /\
  In first_chat
     (fst (storage.LoadConversations None
             (fst (storage.SaveConversation None (7 * second)
                     (chat [hello]) two_chats)))).
Proof.
  assert (N : models.ID first_chat <> models.ID (chat [hello]))
    by (vm_compute; discriminate).
  split; [exact N|].
  apply (proj2 (SaveConversation_keeps_others two_chats (chat [hello])
                  first_chat (7 * second) N)).
  left. reflexivity.
Defined.

Lemma LoadConversations_after_delete_witness :
  In first_chat (fst (storage.LoadConversations None two_chats)) /\
  models.ID first_chat <> "conv_5" /\
  fst (storage.LoadConversations None
         (fst (storage.DeleteConversation None "conv_5" two_chats)))
  = [first_chat].
Proof.
  assert (I : In first_chat (fst (storage.LoadConversations None two_chats)))
    by (left; reflexivity).
  assert (N : models.ID first_chat <> "conv_5") by (vm_compute; discriminate).
  split; [exact I|]. split; [exact N|].
  pose proof (proj2 (LoadConversations_after_delete two_chats "conv_5"
                       first_chat) (conj I N)) as H.
  revert H. vm_compute. reflexivity.
Defined.

Lemma DeleteConversation_missing_id_witness :
  existsb (storage.has_id "conv_9") (storage.conversations two_chats)
  = false /\
  storage.DeleteConversation None "conv_9" two_chats = (two_chats, None).
Proof.
  assert (A : existsb (storage.has_id "conv_9")
                (storage.conversations two_chats) = false)
    by (vm_compute; reflexivity).
  split; [exact A|].
  destruct (DeleteConversation_missing_id two_chats "conv_9" A)
    as (E & _ & _ & D).
  destruct (storage.DeleteConversation None "conv_9" two_chats) as [d e].
  cbn [fst snd] in *. now rewrite E, (D eq_refl).
Defined.

Lemma loaded_ids_distinct_witness :
  NoDup (map storage.id (storage.conversations opened)) /\
  NoDup (map models.ID
           (fst (storage.LoadConversations None
                   (apply_ops [Save None (1 * second) first_chat;
                               Save None (6 * second) (chat [hello]);
                               Save (Some "disk full") (7 * second)
                                    (chat []);
                               Save None (9 * second)
                                    (chat [hello; hi_there]);
                               Delete None "conv_1"] opened)))).
Proof.
  assert (N : NoDup (map storage.id (storage.conversations opened)))
    by constructor.
  split; [exact N|]. exact (loaded_ids_distinct _ opened N).
Defined.

Lemma conversations_only_grow_witness :
  bubbles.run fresh submit_in_A = Some awaiting /\
  grown (ui.conversations (ui.model fresh))
        (ui.conversations (ui.model awaiting)).
Proof.
  assert (R : bubbles.run fresh submit_in_A = Some awaiting)
    by (vm_compute; reflexivity).
  split; [exact R|].
  exact (conversations_only_grow bubbles.textarea_Update
           bubbles.list_Update fresh awaiting submit_in_A R).
Defined.

Lemma no_error_left_pending_witness :
  bubbles.run fresh submit_in_A = Some awaiting /\
  ui.err (ui.model awaiting) = None.
Proof.
  assert (R : bubbles.run fresh submit_in_A = Some awaiting)
    by (vm_compute; reflexivity).
  split; [exact R|].
  exact (no_error_left_pending bubbles.textarea_Update bubbles.list_Update
           None None (1 * second) storage.empty_file submit_in_A awaiting R).
Defined.

Lemma failed_save_keeps_memory_witness :
  saved_conversation typed (ui.KeyMsg ui.KeyEnter "")
    (disk_full (7 * second))
  = Some (ui.append_message true (userMsg typed (disk_full (7 * second)))
            first_chat) /\
  ui.io (disk_full (7 * second)) = Some "disk full" /\
  ui.err typed = None /\
  ui.db (fst (bubbles.Update typed (ui.KeyMsg ui.KeyEnter "")
                (disk_full (7 * second)))) = ui.db typed /\
  ui.shown_error
    (ui.viewport (fst (bubbles.Update typed (ui.KeyMsg ui.KeyEnter "")
                         (disk_full (7 * second)))))
  = Some "failed to save conversation: disk full".
Proof.
  assert (S : saved_conversation typed (ui.KeyMsg ui.KeyEnter "")
                (disk_full (7 * second))
              = Some (ui.append_message true
                        (userMsg typed (disk_full (7 * second)))
                        first_chat))
    by (vm_compute; reflexivity).
  split; [exact S|]. split; [reflexivity|]. split; [reflexivity|].
  destruct (failed_save_keeps_memory bubbles.textarea_Update
              bubbles.list_Update typed (ui.KeyMsg ui.KeyEnter "")
              (disk_full (7 * second)) _ "disk full" S eq_refl eq_refl)
    as (_ & D & V & _).
  split; [exact D | exact V].
Defined.

Lemma submit_sends_whole_conversation_witness :
  submits typed = true /\
  snd (bubbles.Update typed (ui.KeyMsg ui.KeyEnter "") (at_ (7 * second)))
  = ui.Send [{| ui.chat_role := ui.ChatMessageRoleSystem;
                ui.chat_content := ui.system_prompt |};
             {| ui.chat_role := ui.ChatMessageRoleUser;
                ui.chat_content := "Hello" |}].
Proof.
  assert (S : submits typed = true) by (vm_compute; reflexivity).
  split; [exact S|].
  destruct (submit_sends_whole_conversation bubbles.textarea_Update
              bubbles.list_Update typed "" (at_ (7 * second)) S)
    as (C & _).
  unfold bubbles.Update. rewrite C. vm_compute. reflexivity.
Defined.

Lemma viewport_follows_current_witness :
  bubbles.run fresh submit_in_A = Some awaiting /\
  (ui.body (ui.viewport (ui.model awaiting)) = ui.Banner \/
   (ui.body (ui.viewport (ui.model awaiting)) = body_of (ui.model awaiting)
    /\ ui.typing (ui.viewport (ui.model awaiting))
       = ui.loading (ui.model awaiting))).
Proof.
  assert (R : bubbles.run fresh submit_in_A = Some awaiting)
    by (vm_compute; reflexivity).
  split; [exact R|].
  exact (viewport_follows_current bubbles.textarea_Update
           bubbles.list_Update None None (1 * second) storage.empty_file
           submit_in_A awaiting R).
Defined.

Lemma list_Update_keeps_items (l : ui.ConvList) (msg : ui.Msg) :
  ui.items (bubbles.list_Update l msg) = ui.items l.
Proof.
  unfold bubbles.list_Update.
  destruct msg as [w h|key r|content e|]; try reflexivity.
  destruct key; try reflexivity.
  destruct (S (ui.index l) <? List.length (ui.items l))%nat; reflexivity.
Qed.

Abbreviation run_fresh :=
  (ui.run bubbles.textarea_Update bubbles.list_Update
     (start None None (1 * second) storage.empty_file)).

Lemma current_conversation_exists_witness :
  (forall l msg, ui.items (bubbles.list_Update l msg) = ui.items l) /\
  run_fresh (submit_in_A ++ switch_to_B) = Some switched /\
  exists c,
    ui.getCurrentConversation (ui.model switched) = Some c /\
    models.ID c = ui.currentConvID (ui.model switched).
Proof.
  assert (R : run_fresh (submit_in_A ++ switch_to_B) = Some switched)
    by (vm_compute; reflexivity).
  split; [exact list_Update_keeps_items|]. split; [exact R|].
  exact (current_conversation_exists bubbles.textarea_Update
           bubbles.list_Update list_Update_keeps_items None None
           (1 * second) storage.empty_file
           (submit_in_A ++ switch_to_B) switched R).
Defined.




Lemma two_chats_titles :
  Forall (fun r => title_ok 30 (storage.name r))
         (storage.conversations two_chats).
Proof.
  repeat constructor; apply Nat.leb_le; vm_compute; reflexivity.
Qed.

Abbreviation run_second :=
  (ui.run bubbles.textarea_Update bubbles.list_Update
     (start None None (20 * second) two_chats)).

Lemma titles_at_most_30_runes_witness :
  Forall (fun r => title_ok 30 (storage.name r))
         (storage.conversations two_chats) /\
  run_second long_submit = Some titled /\
  titles_within 30 (ui.model titled).
Proof.
  assert (R : run_second long_submit = Some titled)
    by (vm_compute; reflexivity).
  split; [exact two_chats_titles|]. split; [exact R|].
  exact (titles_at_most_30_runes bubbles.textarea_Update
           bubbles.list_Update None None (20 * second) two_chats
           long_submit titled two_chats_titles R).
Defined.

Lemma session_leaves_no_orphans_witness :
  orphans two_chats = [] /\
  run_second long_submit = Some titled /\
  orphans (ui.db (ui.model titled)) = [].
Proof.
  assert (O : orphans two_chats = []) by (vm_compute; reflexivity).
  assert (R : run_second long_submit = Some titled)
    by (vm_compute; reflexivity).
  split; [exact O|]. split; [exact R|].
  exact (session_leaves_no_orphans bubbles.textarea_Update
           bubbles.list_Update None None (20 * second) two_chats
           long_submit titled O R).
Defined.

Lemma spaces_blank : blank spaces.
Proof.
  exists white. split; [repeat constructor | reflexivity].
Qed.

Lemma blank_input_not_submitted_witness :
  blank (ui.Value (ui.textarea (ui.model padded))) /\
  ui.conversations
    (ui.model (ui.deliver bubbles.textarea_Update bubbles.list_Update
                 padded (ui.KeyMsg ui.KeyEnter "") (at_ (7 * second))))
  = ui.conversations (ui.model padded).
Proof.
  split; [exact spaces_blank|].
  exact (proj1 (blank_input_not_submitted bubbles.textarea_Update
                  bubbles.list_Update padded "" (at_ (7 * second))
                  spaces_blank)).
Defined.
